(** * Whale transaction monitor: ingestion core

    A shallow embedding of the rate-limited provider gateway
    ([utils/alchemy_rpc.py]), the chain pollers ([chains/*.py]) and the
    persistence sink ([utils/supabase_writer.py]), with the properties the
    specification states about them.

    Conventions.  Python [int] is [Z]; Python [float] (clock readings,
    prices, token amounts) is the exact rational [Q], so binary rounding
    and float overflow are not represented; [str] is [string]; a [dict]
    used as a map is a [gmap], a [dict] whose insertion order the code
    relies on is an association list.  Provider answers are typed records:
    an answer whose fields have other JSON types than the ones the code
    reads them at is outside the model. *)

From Stdlib Require Import ZArith QArith Qabs Lqa Lia List Sorted Bool Ascii String HexString.
From stdpp Require Import base option list gmap strings.
Import ListNotations.

Set Warnings "-register-all".
Local Open Scope Z_scope.

(** ** Rate budget gateway: [AlchemyRateLimiter] *)

Module RateLimiter.

Record AlchemyRateLimiter := mkLimiter {
  max_rps : Z;
  monthly_budget : Z;
  cu_used : Z;
  _window_start : Q;
  _requests_in_window : Z;
  _last_log_time : Q;
  _LOG_INTERVAL : Q
}.

(** [__init__]: the two [time.time()] readings are [t0] and [t1]. *)
Definition init (t0 t1 : Q) (max_rps monthly_cu_budget : Z) : AlchemyRateLimiter :=
  {| max_rps := max_rps;
     monthly_budget := monthly_cu_budget;
     cu_used := 0;
     _window_start := t0;
     _requests_in_window := 0;
     _last_log_time := t1;
     _LOG_INTERVAL := 3600 |}.

Definition set_window (s : AlchemyRateLimiter) (ws : Q) (n : Z) : AlchemyRateLimiter :=
  {| max_rps := max_rps s;
     monthly_budget := monthly_budget s;
     cu_used := cu_used s;
     _window_start := ws;
     _requests_in_window := n;
     _last_log_time := _last_log_time s;
     _LOG_INTERVAL := _LOG_INTERVAL s |}.

(** [can_request]: the budget gate returns before the clock is read; [now]
    is the reading the call takes when it gets past that gate. *)
Definition can_request (now : Q) (cu_cost : Z) (s : AlchemyRateLimiter)
  : bool * AlchemyRateLimiter :=
  if monthly_budget s <? cu_used s + cu_cost then (false, s)
  else
    let s' := if Qle_bool 1 (now - _window_start s)
              then set_window s now 0 else s in
    (_requests_in_window s' <? max_rps s', s').

(** [record_request]: the hourly usage report only writes to the logger;
    what stays of it in the state is [_last_log_time]. *)
Definition record_request (now : Q) (cu_cost : Z) (s : AlchemyRateLimiter)
  : AlchemyRateLimiter :=
  {| max_rps := max_rps s;
     monthly_budget := monthly_budget s;
     cu_used := cu_used s + cu_cost;
     _window_start := _window_start s;
     _requests_in_window := _requests_in_window s + 1;
     _last_log_time :=
       if Qle_bool (_LOG_INTERVAL s) (now - _last_log_time s)
       then now else _last_log_time s;
     _LOG_INTERVAL := _LOG_INTERVAL s |}.

(** Result of running [wait_if_needed] for a bounded number of loop
    iterations.  The Python function has no return value: it either gets
    past the [while] and records the request, or it is still inside the
    loop.  [clock i] is the wall-clock reading at instant [i]; every
    [time.sleep(0.05)] and every call moves to the next instant. *)
Inductive outcome :=
| Granted (s : AlchemyRateLimiter) (t_grant : Q) (next : nat)
| StillWaiting (s : AlchemyRateLimiter) (next : nat).

Fixpoint wait_if_needed (fuel : nat) (clock : nat -> Q) (k : nat)
    (cu_cost : Z) (s : AlchemyRateLimiter) : outcome :=
  match fuel with
  | O => StillWaiting s k
  | S fuel' =>
      let '(ok, s1) := can_request (clock k) cu_cost s in
      if ok
      then Granted (record_request (clock (S k)) cu_cost s1) (clock k) (S (S k))
      else wait_if_needed fuel' clock (S k) cu_cost s1
  end.



(** A sequential run of acquires, one after the other, with the log of the
    admissions: the instant of admission and the window it was counted in.
    An acquire that does not get out of its loop ends the run. *)
Record admission := mkAdmission { adm_time : Q; adm_window : Q }.

Fixpoint run_acquires (fuel : nat) (clock : nat -> Q) (k : nat)
    (costs : list Z) (s : AlchemyRateLimiter) (log : list admission)
  : AlchemyRateLimiter * list admission :=
  match costs with
  | [] => (s, log)
  | c :: costs' =>
      match wait_if_needed fuel clock k c s with
      | Granted s' t k' =>
          run_acquires fuel clock k' costs' s'
            (log ++ [mkAdmission t (_window_start s')])
      | StillWaiting s' _ => (s', log)
      end
  end.






End RateLimiter.

(** ** Python values and string operations used by the code *)

Module Py.

(** A decoded JSON document, which is also the shape of the event
    dictionaries passed between modules. *)
Inductive value :=
| VNone
| VBool (b : bool)
| VInt (n : Z)
| VFloat (q : Q)
| VStr (s : string)
| VList (l : list value)
| VDict (d : list (string * value)).

(** Truth value of [if v:] / [not v]. *)
Definition truthy (v : value) : bool :=
  match v with
  | VNone => false
  | VBool b => b
  | VInt n => negb (n =? 0)
  | VFloat q => negb (Qeq_bool q 0)
  | VStr s => negb (String.eqb s "")
  | VList l => match l with [] => false | _ => true end
  | VDict d => match d with [] => false | _ => true end
  end.

Fixpoint assoc (k : string) (d : list (string * value)) : option value :=
  match d with
  | [] => None
  | (k', v) :: d' => if String.eqb k k' then Some v else assoc k d'
  end.

(** [a < b] on floats. *)
Definition Qltb (a b : Q) : bool := negb (Qle_bool b a).

(** ASCII case mapping; bytes outside [a-z] / [A-Z] are left alone. *)
Definition upper_ascii (c : ascii) : ascii :=
  let n := nat_of_ascii c in
  if (97 <=? n)%nat && (n <=? 122)%nat then ascii_of_nat (n - 32) else c.

Definition lower_ascii (c : ascii) : ascii :=
  let n := nat_of_ascii c in
  if (65 <=? n)%nat && (n <=? 90)%nat then ascii_of_nat (n + 32) else c.

Fixpoint map_string (f : ascii -> ascii) (s : string) : string :=
  match s with
  | EmptyString => EmptyString
  | String c s' => String (f c) (map_string f s')
  end.

Definition upper (s : string) : string := map_string upper_ascii s.
Definition lower (s : string) : string := map_string lower_ascii s.

Definition startswith (s p : string) : bool := String.prefix p s.

(** [p in s] for strings. *)
Fixpoint contains (p s : string) : bool :=
  String.prefix p s ||
  match s with
  | EmptyString => false
  | String _ s' => contains p s'
  end.

Fixpoint rev_string (s : string) : string :=
  match s with
  | EmptyString => EmptyString
  | String c s' => String.append (rev_string s') (String c EmptyString)
  end.

Definition endswith (s p : string) : bool :=
  String.prefix (rev_string p) (rev_string s).

(** [s.replace(old, new)] for a non-empty [old]: every non-overlapping
    occurrence, scanning from the left.  [skip] counts the characters of a
    match that are still to be dropped. *)
Fixpoint replace_from (old new : string) (skip : nat) (s : string) : string :=
  match s with
  | EmptyString => EmptyString
  | String c s' =>
      match skip with
      | S n => replace_from old new n s'
      | O =>
          if String.prefix old s
          then String.append new (replace_from old new (String.length old - 1) s')
          else String c (replace_from old new 0 s')
      end
  end.

Definition replace (old new s : string) : string := replace_from old new 0 s.

(** [s[-n:]] for [n > 0]: the last [n] characters, all of [s] when shorter. *)
Definition last_chars (n : nat) (s : string) : string :=
  String.substring (String.length s - n) n s.

(** Result of a statement that may raise. *)
Inductive exc (A : Type) :=
| Ok (a : A)
| Raised.
Arguments Ok {A} a.
Arguments Raised {A}.

End Py.

(** ** Provider client: [_rpc_call] and [_http_call] *)

Module ProviderClient.
Import Py RateLimiter.

(** What [requests.post] did: it raised (timeout, connection error, ...),
    or it returned a response with a status code whose [.json()] either
    parses ([Some]) or raises ([None]). *)
Inductive http_result :=
| TransportError
| Response (status_code : Z) (json : option value).

(** ['error' in data]: key test on a dict, element test on a list,
    substring test on a string, [TypeError] otherwise. *)
Definition has_error (data : value) : exc bool :=
  match data with
  | VDict d => Ok (bool_decide (is_Some (assoc "error" d)))
  | VList l =>
      Ok (existsb (fun v => match v with
                            | VStr s => String.eqb s "error"
                            | _ => false
                            end) l)
  | VStr s => Ok (contains "error" s)
  | _ => Raised
  end.

(** [data['error']], evaluated for the warning. *)
Definition index_error (data : value) : exc value :=
  match data with
  | VDict d => match assoc "error" d with Some v => Ok v | None => Raised end
  | _ => Raised
  end.

(** [data.get('result')]. *)
Definition get_result (data : value) : exc value :=
  match data with
  | VDict d => Ok (default VNone (assoc "result" d))
  | _ => Raised
  end.

(** The [try] body of [_rpc_call]. *)
Definition rpc_try (net : http_result) : exc value :=
  match net with
  | TransportError => Raised
  | Response status body =>
      if status =? 429 then Ok VNone
      else
        match body with
        | None => Raised
        | Some data =>
            match has_error data with
            | Raised => Raised
            | Ok true =>
                match index_error data with
                | Raised => Raised
                | Ok _ => Ok VNone
                end
            | Ok false => get_result data
            end
        end
  end.

(** The [try] body of [_http_call]. *)
Definition http_try (net : http_result) : exc value :=
  match net with
  | TransportError => Raised
  | Response status body =>
      if status =? 429 then Ok VNone
      else match body with
           | None => Raised
           | Some data => Ok data
           end
  end.

(** [except Exception: return None]. *)
Definition catch_none (r : exc value) : value :=
  match r with Ok v => v | Raised => VNone end.

(** A provider call: first the gateway, then the request.  [Blocked] is
    the call still inside [wait_if_needed] after [fuel] iterations. *)
Inductive call_result :=
| Returned (s : AlchemyRateLimiter) (v : value) (next : nat)
| Blocked (s : AlchemyRateLimiter) (next : nat).

Definition _rpc_call (fuel : nat) (clock : nat -> Q) (k : nat)
    (s : AlchemyRateLimiter) (cu_cost : Z) (net : http_result) : call_result :=
  match wait_if_needed fuel clock k cu_cost s with
  | StillWaiting s' k' => Blocked s' k'
  | Granted s' _ k' => Returned s' (catch_none (rpc_try net)) k'
  end.

Definition _http_call (fuel : nat) (clock : nat -> Q) (k : nat)
    (s : AlchemyRateLimiter) (cu_cost : Z) (net : http_result) : call_result :=
  match wait_if_needed fuel clock k cu_cost s with
  | StillWaiting s' k' => Blocked s' k'
  | Granted s' _ k' => Returned s' (catch_none (http_try net)) k'
  end.

(** The failure conditions the specification lists for a response. *)
Definition non_2xx (net : http_result) : Prop :=
  match net with
  | Response status _ => ~ (200 <= status < 300)
  | TransportError => False
  end.

Definition is_429 (net : http_result) : Prop :=
  match net with Response status _ => status = 429 | TransportError => False end.

Definition malformed (net : http_result) : Prop :=
  match net with Response _ None => True | _ => False end.

Definition error_field (net : http_result) : Prop :=
  match net with
  | Response _ (Some (VDict d)) => is_Some (assoc "error" d)
  | _ => False
  end.

Definition transport_exception (net : http_result) : Prop :=
  net = TransportError.

(** A body that is JSON but not an object. *)
Definition not_an_object (net : http_result) : Prop :=
  match net with
  | Response _ (Some (VDict _)) => False
  | Response _ (Some _) => True
  | _ => False
  end.

End ProviderClient.

(** ** Emission boundary: the event handed to [handle_event] *)

Module Emission.

Record event := mkEvent {
  ev_blockchain : string;
  ev_tx_hash : string;
  ev_from : string;
  ev_to : string;
  ev_amount : Q;
  ev_symbol : string;
  ev_usd_value : Q;
  ev_timestamp : Q;
  ev_source : string
}.

(** [if o:] for an optional string. *)
Definition nonempty (o : option string) : bool :=
  match o with
  | Some s => negb (String.eqb s "")
  | None => false
  end.

(** [follows units xs]: the list [xs] visits the units of [units] from
    left to right, any number of times each and never going back. *)
Inductive follows {A : Type} : list A -> list A -> Prop :=
| follows_done units : follows units []
| follows_same u units xs : follows (u :: units) xs -> follows (u :: units) (u :: xs)
| follows_next u units xs : follows units xs -> follows (u :: units) xs.

(** Order on cursors: an unset cursor is below every height. *)
Definition cursor_le (a b : option Z) : Prop :=
  match a, b with
  | None, _ => True
  | Some x, Some y => x <= y
  | Some _, None => False
  end.

End Emission.

(** ** Bitcoin poller ([chains/bitcoin_alchemy.py]) *)

Module Bitcoin.
Import Py Emission.

Record scriptPubKey := {
  spk_address : option string;
  spk_addresses : list string
}.

Record vout_entry := {
  out_value : Q;                      (* out.get("value", 0) *)
  out_scriptPubKey : scriptPubKey     (* out.get("scriptPubKey", {}) *)
}.

(** [vin[i].get("prevout", {}).get("scriptPubKey", {}).get("address")]. *)
Record vin_entry := { prevout_address : option string }.

Record btc_tx := {
  txid : string;
  vout : list vout_entry;
  vin : list vin_entry
}.

Record btc_block := {
  blk_time : option Q;
  blk_tx : list btc_tx
}.

Section Poller.
Variable GLOBAL_USD_THRESHOLD : Q.

(** What one poll cycle sees of the outside: the price table, the clock,
    the provider's answers and the shutdown flag at the top of the
    iteration for height [h]. *)
Record world := {
  TOKEN_PRICES : gmap string Q;
  time_now : Q;
  fetch_bitcoin_blockcount : option Z;
  fetch_bitcoin_blockhash : Z -> option string;
  fetch_bitcoin_block : string -> option btc_block;
  shutdown_set : Z -> bool
}.

Definition _btc_price (w : world) : Q :=
  default (default 65000%Q (TOKEN_PRICES w !! "BTC")) (TOKEN_PRICES w !! "WBTC").

Definition to_address (spk : scriptPubKey) : string :=
  if nonempty (spk_address spk) then default "" (spk_address spk)
  else match spk_addresses spk with
       | a :: _ => a
       | [] => ""
       end.

Definition from_address (tx : btc_tx) : string :=
  match vin tx with
  | v :: _ => if nonempty (prevout_address v)
              then default "" (prevout_address v) else ""
  | [] => ""
  end.

Definition make_event (w : world) (block : btc_block) (btc_usd : Q)
    (tx : btc_tx) (out : vout_entry) : event :=
  {| ev_blockchain := "bitcoin";
     ev_tx_hash := txid tx;
     ev_from := if String.eqb (from_address tx) "" then "coinbase"
                else from_address tx;
     ev_to := to_address (out_scriptPubKey out);
     ev_amount := out_value out;
     ev_symbol := "BTC";
     ev_usd_value := (out_value out * btc_usd)%Q;
     ev_timestamp := default (time_now w) (blk_time block);
     ev_source := "bitcoin_alchemy" |}.

(** The inner [for out in vout] loop: the events passed to [handle_event],
    in call order. *)
Definition scan_outputs (w : world) (block : btc_block) (btc_usd threshold_btc : Q)
    (tx : btc_tx) : list event :=
  flat_map (fun out =>
              if Qltb (out_value out) threshold_btc then []
              else [make_event w block btc_usd tx out])
           (vout tx).

(** [_process_block]: [found] and the emitted events.  The division raises
    [ZeroDivisionError] for a zero price. *)
Definition _process_block (w : world) (block : btc_block) : exc (Z * list event) :=
  let btc_usd := _btc_price w in
  if Qeq_bool btc_usd 0 then Raised
  else
    let threshold_btc := (GLOBAL_USD_THRESHOLD / btc_usd)%Q in
    let emitted := flat_map (scan_outputs w block btc_usd threshold_btc)
                            (blk_tx block) in
    Ok (Z.of_nat (length emitted), emitted).

(** The [for h in range(...)] loop: every emitted event with the height
    whose iteration emitted it, and whether the loop was left by an
    exception. *)
Fixpoint scan_heights (w : world) (hs : list Z) : list (Z * event) * bool :=
  match hs with
  | [] => ([], false)
  | h :: hs' =>
      if shutdown_set w h then ([], false)
      else
        match fetch_bitcoin_blockhash w h with
        | Some blockhash =>
            if String.eqb blockhash "" then scan_heights w hs'
            else
              match fetch_bitcoin_block w blockhash with
              | None => scan_heights w hs'
              | Some block =>
                  match _process_block w block with
                  | Raised => ([], true)
                  | Ok (_, emitted) =>
                      let '(rest, raised) := scan_heights w hs' in
                      (map (pair h) emitted ++ rest, raised)
                  end
              end
        | None => scan_heights w hs'
        end
  end.

(** The part of [poll_bitcoin_blocks] before the loop. *)
Definition startup (w : world) (_last_seen_height : option Z) : option Z :=
  match fetch_bitcoin_blockcount w with
  | Some height => Some height
  | None => _last_seen_height
  end.

(** One iteration of the [while] loop: the new [_last_seen_height] and the
    emissions. *)
Definition poll_cycle (w : world) (_last_seen_height : option Z)
  : option Z * list (Z * event) :=
  match fetch_bitcoin_blockcount w with
  | None => (_last_seen_height, [])
  | Some current_height =>
      match _last_seen_height with
      | None => (Some current_height, [])
      | Some last =>
          if current_height <=? last then (_last_seen_height, [])
          else
            let '(emitted, raised) :=
              scan_heights w (seqZ (last + 1) (current_height - last)) in
            (if raised then _last_seen_height else Some current_height, emitted)
      end
  end.

Fixpoint run_cycles (ws : list world) (cursor : option Z) : option Z :=
  match ws with
  | [] => cursor
  | w :: ws' => run_cycles ws' (fst (poll_cycle w cursor))
  end.

End Poller.
End Bitcoin.

(** ** Tron poller ([chains/tron_alchemy.py]) *)

Module Tron.
Import Py Emission.

Definition TRON_USDT_CONTRACT : string := "TR7NHqjeKQxGTCi8q8ZY4pL8otSzgjLj6t".
Definition TRON_USDC_CONTRACT : string := "TEkxiTehnzSmSe2XqrBj4w32RUN966rdz8".
Definition TRANSFER_TOPIC : string :=
  "ddf252ad1be2c89b69c2b068fc378daa952ba7f163c4a11628f55a4df523b3ef".

Record log_entry := {
  topics : list string;
  log_address : string;
  log_data : string
}.

Record internal_tx := {
  callValueInfo : list Z;             (* the callValue of each entry *)
  caller_address : string;
  transferTo_address : string
}.

Record tx_info := {
  info_id : string;
  info_log : list log_entry;
  internal_transactions : list internal_tx;
  blockTimeStamp : option Q
}.

(** [fetch_tron_now_block]: no usable answer, or a block header with its
    [raw_data.number]. *)
Inductive now_block :=
| NoBlock
| BlockHeader (number : option Z).

Fixpoint lstrip0 (s : string) : string :=
  match s with
  | String "0"%char s' => lstrip0 s'
  | _ => s
  end.

Fixpoint zeros (n : nat) : string :=
  match n with O => "" | S n' => String "0"%char (zeros n') end.

Definition zfill (width : nat) (s : string) : string :=
  String.append (zeros (width - String.length s)) s.

Section Poller.
Variable GLOBAL_USD_THRESHOLD : Q.
(** Python's [int(s, 16)]; [None] is [ValueError]. *)
Variable int16 : string -> option Z.
(** [base58.b58encode(raw + sha256(sha256(raw))[:4])] for
    [raw = bytes.fromhex(h)]; [Raised] when one of these calls raises.
    [import base58] itself is taken to succeed. *)
Variable base58check : string -> exc string.

Record world := {
  TOKEN_PRICES : gmap string Q;
  time_now : Q;
  fetch_tron_now_block : now_block;
  fetch_tron_block_txinfo : Z -> option (list tx_info);
  shutdown_set : Z -> bool
}.

Definition _trx_price (w : world) : Q := default (12 # 100) (TOKEN_PRICES w !! "TRX").

Definition _tron_address_from_hex (hex_addr : string) : string :=
  let h := zfill 40 (lstrip0 (replace "0x" "" hex_addr)) in
  match base58check (String.append "41" h) with
  | Ok a => a
  | Raised => h
  end.

Definition contract_symbol (contract_addr : string) : string * Z :=
  let c := lower contract_addr in
  if String.eqb c (lower TRON_USDT_CONTRACT)
     || contains "a614f803b6fd780986a42c78ec9c7f77e6ded13c" c
  then ("USDT", 6)
  else if contains "cead2b" c then ("USDC", 6)
  else ("TRC20", 18).

Definition pow10 (d : Z) : Q := inject_Z (10 ^ d).

(** The decoded amount and USD value of a log; [None] is the
    [ValueError] branch. *)
Definition log_usd_value (w : world) (l : log_entry) : option (string * Q * Q) :=
  let '(symbol, decimals) := contract_symbol (log_address l) in
  let usdt_price := default 1%Q (TOKEN_PRICES w !! "USDT") in
  match (if String.eqb (log_data l) "" then Some 0 else int16 (log_data l)) with
  | None => None
  | Some raw_amount =>
      let token_amount := (inject_Z raw_amount / pow10 decimals)%Q in
      let price :=
        default (if String.eqb symbol "USDT" || String.eqb symbol "USDC"
                 then usdt_price else 0%Q)
                (TOKEN_PRICES w !! symbol) in
      Some (symbol, token_amount, (token_amount * price)%Q)
  end.

Definition is_transfer_log (l : log_entry) : bool :=
  match topics l with
  | t0 :: _ :: _ :: _ => String.eqb t0 TRANSFER_TOPIC
  | _ => false
  end.

Definition log_event (w : world) (info : tx_info) (l : log_entry)
    (symbol : string) (token_amount usd_value : Q) : event :=
  {| ev_blockchain := "tron";
     ev_tx_hash := info_id info;
     ev_from := _tron_address_from_hex (last_chars 40 (nth 1 (topics l) ""));
     ev_to := _tron_address_from_hex (last_chars 40 (nth 2 (topics l) ""));
     ev_amount := token_amount;
     ev_symbol := symbol;
     ev_usd_value := usd_value;
     ev_timestamp := (default (time_now w * 1000) (blockTimeStamp info) / 1000)%Q;
     ev_source := "tron_alchemy" |}.

(** One iteration of [for log_entry in logs]: the event passed to
    [handle_event], if any. *)
Definition scan_log (w : world) (info : tx_info) (l : log_entry) : list event :=
  if is_transfer_log l then
    match log_usd_value w l with
    | None => []
    | Some (symbol, token_amount, usd_value) =>
        if Qltb usd_value GLOBAL_USD_THRESHOLD then []
        else [log_event w info l symbol token_amount usd_value]
    end
  else [].

(** The native-TRX loop: it counts and prints the qualifying call values;
    it has no [handle_event] call.  The result is the USD values counted. *)
Definition scan_internal (w : world) (itx : internal_tx) : list Q :=
  flat_map (fun trx_sun =>
              if trx_sun <=? 0 then []
              else
                let usd_value := (inject_Z trx_sun / 1000000 * _trx_price w)%Q in
                if Qltb usd_value GLOBAL_USD_THRESHOLD then [] else [usd_value])
           (callValueInfo itx).

(** [_process_block_txinfo]: [found] and the events passed to
    [handle_event], in call order. *)
Definition _process_block_txinfo (w : world) (tx_infos : list tx_info)
  : Z * list event :=
  let emitted := flat_map (fun info => flat_map (scan_log w info) (info_log info))
                          tx_infos in
  let native := flat_map (fun info => flat_map (scan_internal w)
                                               (internal_transactions info))
                         tx_infos in
  (Z.of_nat (length emitted + length native), emitted).

Fixpoint scan_blocks (w : world) (blks : list Z) : list (Z * event) :=
  match blks with
  | [] => []
  | blk :: blks' =>
      if shutdown_set w blk then []
      else
        match fetch_tron_block_txinfo w blk with
        | None => scan_blocks w blks'
        | Some tx_infos =>
            map (pair blk) (snd (_process_block_txinfo w tx_infos))
            ++ scan_blocks w blks'
        end
  end.

Definition startup (w : world) (_last_seen_block : option Z) : option Z :=
  match fetch_tron_now_block w with
  | BlockHeader number => number
  | NoBlock => _last_seen_block
  end.

Definition poll_cycle (w : world) (_last_seen_block : option Z)
  : option Z * list (Z * event) :=
  match fetch_tron_now_block w with
  | NoBlock => (_last_seen_block, [])
  | BlockHeader None => (_last_seen_block, [])
  | BlockHeader (Some current_block) =>
      match _last_seen_block with
      | None => (Some current_block, [])
      | Some last =>
          if current_block <=? last then (_last_seen_block, [])
          else (Some current_block,
                scan_blocks w (seqZ (last + 1) (current_block - last)))
      end
  end.

Fixpoint run_cycles (ws : list world) (cursor : option Z) : option Z :=
  match ws with
  | [] => cursor
  | w :: ws' => run_cycles ws' (fst (poll_cycle w cursor))
  end.

End Poller.
End Tron.

(** ** Polygon poller ([chains/polygon.py], [fetch_asset_transfers]) *)

Module Polygon.
Import Py Emission.

Record raw_contract := {
  rc_address : option string;
  rc_value : option string
}.

Record asset_transfer := {
  blockNum : string;
  tr_hash : string;
  tr_from : string;
  tr_to : string;
  tr_value : option Q;
  rawContract : option raw_contract
}.

(** The request body of [alchemy_getAssetTransfers]. *)
Record transfer_params := {
  fromBlock : string;
  toBlock : string;
  category : list string;
  withMetadata : bool;
  excludeZeroValue : bool;
  maxCount : string;
  order : string;
  contractAddresses : option (list string)
}.

(** What [_rpc_call] returned for the request: [None], or a result object
    with or without a ['transfers'] entry. *)
Inductive rpc_result :=
| RpcNone
| RpcResult (transfers : option (list asset_transfer)).

Record token_info := { contract : string; decimals : Z }.

Section Poller.
Variable GLOBAL_USD_THRESHOLD : Q.
Variable POLYGON_TOKENS_TO_MONITOR : list (string * token_info).
Variable ALCHEMY_POLYGON_RPC : option string.
(** Python's [int(s, 16)]; [None] is [ValueError]. *)
Variable int16 : string -> option Z.

Record world := {
  TOKEN_PRICES : gmap string Q;
  time_now : Q;
  rpc_eth_blockNumber : option string;
  rpc_getAssetTransfers : transfer_params -> rpc_result
}.

Definition fetch_asset_transfers (w : world) (from_block to_block : string)
    (contract_addresses : list string) (category : list string)
  : option (list asset_transfer) :=
  if nonempty ALCHEMY_POLYGON_RPC then
    let params :=
      {| fromBlock := from_block;
         toBlock := to_block;
         category := match category with [] => ["erc20"] | _ => category end;
         withMetadata := true;
         excludeZeroValue := true;
         maxCount := "0x3e8";
         order := "desc";
         contractAddresses :=
           match contract_addresses with [] => None | _ => Some contract_addresses end |} in
    match rpc_getAssetTransfers w params with
    | RpcResult (Some transfers) => Some transfers
    | _ => None
    end
  else None.

Definition _get_polygon_block_number (w : world) : option Z :=
  if nonempty ALCHEMY_POLYGON_RPC then
    match rpc_eth_blockNumber w with
    | Some result => if String.eqb result "" then None else int16 result
    | None => None
    end
  else None.

Definition contract_addresses : list string :=
  map (fun p => contract (snd p)) POLYGON_TOKENS_TO_MONITOR.

Definition contract_map : gmap string (string * Z) :=
  foldl (fun m p => <[lower (contract (snd p)) := (fst p, decimals (snd p))]> m)
        ∅ POLYGON_TOKENS_TO_MONITOR.

(** One iteration of [for tx in transfers]. *)
Definition scan_transfer (w : world) (tx : asset_transfer) : list event :=
  let raw := default {| rc_address := None; rc_value := None |} (rawContract tx) in
  let contract_addr := lower (default "" (rc_address raw)) in
  match contract_map !! contract_addr with
  | None => []
  | Some (symbol, decimals) =>
      let price := default 0%Q (TOKEN_PRICES w !! symbol) in
      if Qeq_bool price 0 then []
      else
        let value :=
          match tr_value tx with
          | Some v => Some v
          | None =>
              match int16 (default "0x0" (rc_value raw)) with
              | Some raw_int => Some (inject_Z raw_int / Qpower 10 decimals)%Q
              | None => None
              end
          end in
        match value with
        | None => []
        | Some v =>
            let usd_value := (v * price)%Q in
            if Qltb usd_value GLOBAL_USD_THRESHOLD then []
            else [ {| ev_blockchain := "polygon";
                      ev_tx_hash := tr_hash tx;
                      ev_from := tr_from tx;
                      ev_to := tr_to tx;
                      ev_amount := v;
                      ev_symbol := symbol;
                      ev_usd_value := usd_value;
                      ev_timestamp := time_now w;
                      ev_source := "polygon_alchemy" |} ]
        end
  end.

(** The emissions of a cycle, each with the [blockNum] of its transfer. *)
Definition scan_transfers (w : world) (transfers : list asset_transfer)
  : list (string * event) :=
  flat_map (fun tx => map (pair (blockNum tx)) (scan_transfer w tx)) transfers.

Definition startup (w : world) : option Z :=
  match _get_polygon_block_number w with
  | Some current_block => if current_block =? 0 then None else Some current_block
  | None => None
  end.

Definition poll_cycle (w : world) (last_block : option Z)
  : option Z * list (string * event) :=
  match _get_polygon_block_number w with
  | None => (last_block, [])
  | Some tip =>
      match last_block with
      | None => (Some tip, [])
      | Some last =>
          if tip <=? last then (last_block, [])
          else
            let transfers :=
              fetch_asset_transfers w (HexString.of_Z (last + 1)) (HexString.of_Z tip)
                                    contract_addresses ["erc20"] in
            (Some tip, scan_transfers w (default [] transfers))
      end
  end.

Fixpoint run_cycles (ws : list world) (cursor : option Z) : option Z :=
  match ws with
  | [] => cursor
  | w :: ws' => run_cycles ws' (fst (poll_cycle w cursor))
  end.

End Poller.
End Polygon.

(** ** Solana poller ([chains/solana_api.py]) *)

Module Solana.
Import Py Emission.

Definition PARSED_CACHE_MAX : nat := 500.

(** An entry of the [getSignaturesForAddress] answer: a dict with its
    ["signature"] and ["blockTime"], or some other JSON value. *)
Inductive sig_info :=
| SigDict (signature : option string) (blockTime : option Z)
| SigOther.

Record transfer_info := {
  info_mint : option string;
  info_source : option string;
  info_destination : option string;
  info_amount : string                (* str(info_data.get("amount")) *)
}.

Record parsed_ix := {
  ix_type : option string;
  ix_info : transfer_info
}.

Record instruction := {
  programId : option string;
  parsed : option parsed_ix
}.

(** The parsed transaction payload, as far as the poller reads it. *)
Record tx_data := {
  tx_blockTime : option Z;
  instructions : list instruction;
  innerInstructions : list (list instruction)
}.

Record extracted := {
  x_source : option string;
  x_destination : option string;
  x_amount : string
}.

(** The event dict built by [fetch_solana_token_transfers]. *)
Record sol_event := {
  se_from : option string;
  se_to : option string;
  se_symbol : string;
  se_amount : string;
  se_tx_hash : string;
  se_timestamp : option Z;
  se_decimals : Z;
  se_raw_tx : tx_data
}.

Record mint_info := { mint : string; decimals : Z }.

(** [parsed_cache]: a dict read in insertion order, oldest first. *)
Definition cache := list (string * tx_data).

Definition cache_get (sig : string) (c : cache) : option tx_data :=
  snd <$> find (fun e => String.eqb (fst e) sig) c.

(** [del parsed_cache[k]]. *)
Definition cache_del (k : string) (c : cache) : cache :=
  List.filter (fun e => negb (String.eqb (fst e) k)) c.

(** [parsed_cache[sig] = tx_data] for a [sig] that is not a key, then the
    eviction. *)
Definition cache_store (sig : string) (tx : tx_data) (c : cache) : cache :=
  let c1 := c ++ [(sig, tx)] in
  if (PARSED_CACHE_MAX <? length c1)%nat then
    let oldest_keys := map fst (firstn (length c1 - PARSED_CACHE_MAX) c1) in
    fold_left (fun acc k => cache_del k acc) oldest_keys c1
  else c1.

(** The signatures seen before the last processed one, newest first. *)
Fixpoint collect_new (last_sig : option string) (sig_infos : list sig_info)
  : list string :=
  match sig_infos with
  | [] => []
  | SigOther :: rest => collect_new last_sig rest
  | SigDict sig _ :: rest =>
      match sig with
      | None => collect_new last_sig rest
      | Some s =>
          if String.eqb s "" then collect_new last_sig rest
          else if nonempty last_sig && bool_decide (Some s = last_sig) then []
          else s :: collect_new last_sig rest
      end
  end.

Definition new_signatures (last_sig : option string) (sig_infos : list sig_info)
  : list string :=
  rev (collect_new last_sig sig_infos).

(** [entry.get("blockTime")] of the first entry whose signature is [sig];
    the loop calls [.get] on every entry it passes. *)
Fixpoint entry_block_time (sig : string) (sig_infos : list sig_info)
  : exc (option Z) :=
  match sig_infos with
  | [] => Ok None
  | SigOther :: _ => Raised
  | SigDict s bt :: rest =>
      if bool_decide (s = Some sig) then Ok bt else entry_block_time sig rest
  end.

Definition TOKEN_PROGRAM : string := "TokenkegQfeZyiNwAJbNbGKPFXCWuBvf9Ss623VQ5DA".

Definition extract_transfers_from_instructions (mint_addr : string)
    (ixs : list instruction) : list extracted :=
  flat_map
    (fun ix =>
       match programId ix with
       | Some program_id =>
           if negb (String.eqb program_id "") && endswith program_id TOKEN_PROGRAM then
             match parsed ix with
             | Some p =>
                 if bool_decide (ix_type p = Some "transfer")
                    && bool_decide (info_mint (ix_info p) = Some mint_addr)
                 then [ {| x_source := info_source (ix_info p);
                           x_destination := info_destination (ix_info p);
                           x_amount := info_amount (ix_info p) |} ]
                 else []
             | None => []
             end
           else []
       | None => []
       end)
    ixs.

Definition transfers_extracted (mint_addr : string) (tx : tx_data) : list extracted :=
  extract_transfers_from_instructions mint_addr (instructions tx)
  ++ flat_map (extract_transfers_from_instructions mint_addr) (innerInstructions tx).

(** State that outlives a call: the per-mint cursors and the cache. *)
Record state := {
  solana_last_processed_signature : gmap string (option string);
  parsed_cache : cache
}.

Record world := {
  fetch_solana_signatures : string -> option (list sig_info);
  fetch_solana_transaction : string -> option tx_data
}.

(** Where the [for sig in new_signatures] loop stands when it ends or
    is left by an exception: the signatures whose iteration ran, the events
    appended to [results], the cache. *)
Record processed := {
  visited : list string;
  results : list sol_event;
  cache_after : cache;
  raised : bool
}.

Definition events_of (symbol : string) (decimals : Z) (mint_addr sig : string)
    (block_time : option Z) (tx : tx_data) : list sol_event :=
  map (fun t =>
         {| se_from := x_source t;
            se_to := x_destination t;
            se_symbol := symbol;
            se_amount := x_amount t;
            se_tx_hash := sig;
            se_timestamp := match block_time with
                            | Some bt => if bt =? 0 then None else Some bt
                            | None => None
                            end;
            se_decimals := decimals;
            se_raw_tx := tx |})
      (transfers_extracted mint_addr tx).

Definition visit (sig : string) (evs : list sol_event) (p : processed) : processed :=
  {| visited := sig :: visited p;
     results := evs ++ results p;
     cache_after := cache_after p;
     raised := raised p |}.

Fixpoint process_signatures (w : world) (symbol : string) (decimals : Z)
    (mint_addr : string) (sig_infos : list sig_info)
    (sigs : list string) (c : cache) : processed :=
  match sigs with
  | [] => {| visited := []; results := []; cache_after := c; raised := false |}
  | sig :: sigs' =>
      let fetched :=
        match cache_get sig c with
        | Some tx => Some (tx, c)
        | None =>
            match fetch_solana_transaction w sig with
            | Some tx => Some (tx, cache_store sig tx c)
            | None => None
            end
        end in
      match fetched with
      | None =>
          visit sig [] (process_signatures w symbol decimals mint_addr sig_infos sigs' c)
      | Some (tx, c1) =>
          match (match tx_blockTime tx with
                 | Some bt => Ok (Some bt)
                 | None => entry_block_time sig sig_infos
                 end) with
          | Raised =>
              {| visited := [sig]; results := []; cache_after := c1; raised := true |}
          | Ok block_time =>
              visit sig (events_of symbol decimals mint_addr sig block_time tx)
                    (process_signatures w symbol decimals mint_addr sig_infos sigs' c1)
          end
      end
  end.

Definition idle (c : cache) : processed :=
  {| visited := []; results := []; cache_after := c; raised := false |}.

(** The body of [for mint, info in _active_tokens().items()] for one mint.
    The cursor is written before the signatures are processed. *)
Definition poll_mint (w : world) (symbol : string) (info : mint_info) (st : state)
  : state * processed :=
  let last_sig := mjoin (solana_last_processed_signature st !! symbol) in
  match fetch_solana_signatures w (mint info) with
  | None => (st, idle (parsed_cache st))
  | Some [] => (st, idle (parsed_cache st))
  | Some ((first :: _) as sig_infos) =>
      let news := new_signatures last_sig sig_infos in
      match last news with
      | Some newest =>
          let p := process_signatures w symbol (decimals info) (mint info) sig_infos
                                      news (parsed_cache st) in
          ({| solana_last_processed_signature :=
                <[symbol := Some newest]> (solana_last_processed_signature st);
              parsed_cache := cache_after p |}, p)
      | None =>
          match last_sig with
          | None =>
              let first_sig := match first with
                               | SigDict s _ => s
                               | SigOther => None
                               end in
              ({| solana_last_processed_signature :=
                    <[symbol := first_sig]> (solana_last_processed_signature st);
                  parsed_cache := parsed_cache st |}, idle (parsed_cache st))
          | Some _ => (st, idle (parsed_cache st))
          end
      end
  end.

Definition TOP_SOLANA_TOKENS : list string :=
  ["SOL"; "JTO"; "WIF"; "PYTH"; "RENDER"; "BONK"; "RAY"; "ORCA"; "MSOL"; "BSOL"].

Definition _active_tokens (SOL_TOKENS_TO_MONITOR : list (string * mint_info))
  : list (string * mint_info) :=
  List.filter (fun p => existsb (String.eqb (fst p)) TOP_SOLANA_TOKENS)
              SOL_TOKENS_TO_MONITOR.

(** [fetch_solana_token_transfers]: the returned list, or [None] when an
    exception leaves the function; the state it leaves behind either way. *)
Fixpoint poll_mints (w : world) (tokens : list (string * mint_info)) (st : state)
  : state * option (list sol_event) :=
  match tokens with
  | [] => (st, Some [])
  | (symbol, info) :: tokens' =>
      let '(st1, p) := poll_mint w symbol info st in
      if raised p then (st1, None)
      else
        let '(st2, rest) := poll_mints w tokens' st1 in
        (st2, app (results p) <$> rest)
  end.

Definition fetch_solana_token_transfers (w : world)
    (SOL_TOKENS_TO_MONITOR : list (string * mint_info)) (st : state)
  : state * option (list sol_event) :=
  poll_mints w (_active_tokens SOL_TOKENS_TO_MONITOR) st.




(** The polling loop, as far as the state goes: one call of
    [fetch_solana_token_transfers] per cycle. *)
Fixpoint run_cycles (ws : list world)
    (SOL_TOKENS_TO_MONITOR : list (string * mint_info)) (st : state) : state :=
  match ws with
  | [] => st
  | w :: ws' =>
      run_cycles ws' SOL_TOKENS_TO_MONITOR
                 (fst (fetch_solana_token_transfers w SOL_TOKENS_TO_MONITOR st))
  end.

Section Emit.
Variable GLOBAL_USD_THRESHOLD : Q.
Variable TOKEN_PRICES : gmap string Q.
(** Python's [int(s)]; [None] is [ValueError]. *)
Variable int10 : string -> option Z.
(** [process_and_enrich_transaction], which lives outside this core:
    [None] when it returns nothing or raises. *)
Variable enriched : Type.
Variable process_and_enrich_transaction : sol_event -> option enriched.

Definition estimated_usd (ev : sol_event) : option Q :=
  match int10 (se_amount ev) with
  | Some raw_amount =>
      let token_amount := (inject_Z raw_amount / Qpower 10 (se_decimals ev))%Q in
      Some (token_amount * default 0%Q (TOKEN_PRICES !! se_symbol ev))%Q
  | None => None
  end.

(** One iteration of [for event in transfers] in
    [print_new_solana_transfers]: the event passed to [handle_event]. *)
Definition emit (ev : sol_event) : list (sol_event * enriched * Q) :=
  match estimated_usd ev with
  | None => []
  | Some usd =>
      if Qltb usd GLOBAL_USD_THRESHOLD then []
      else match process_and_enrich_transaction ev with
           | Some e => [(ev, e, usd)]
           | None => []
           end
  end.

Definition emitted (transfers : list sol_event) : list (sol_event * enriched * Q) :=
  flat_map emit transfers.

End Emit.

End Solana.

(** ** Persistence sink ([utils/supabase_writer.py]) *)

Module SupabaseWriter.
Import Py.

Definition bind {A B} (e : exc A) (k : A -> exc B) : exc B :=
  match e with Ok a => k a | Raised => Raised end.

Notation "'do' x <- e ; k" := (bind e (fun x => k))
  (at level 10, x name, e at level 100, k at level 200).

(** The row's timestamp: taken from the event (in seconds) or from the
    clock.  Its ISO-8601 rendering by [datetime], and the range error
    [datetime.fromtimestamp] raises on a far-away instant, are not
    represented. *)
Inductive row_timestamp :=
| FromEvent (seconds : Q)
| FromClock.

Record whale_row := {
  transaction_hash : value;
  timestamp : row_timestamp;
  blockchain : string;
  token_symbol : string;
  classification : string;
  usd_value : Q;
  whale_score : Q;
  whale_address : value;
  counterparty_address : value;
  counterparty_type : value;
  from_address : value;
  to_address : value;
  reasoning : value;
  confidence : Q;
  from_label : value;
  to_label : value
}.

(** [d.get(k, dflt)]. *)
Definition get (d : gmap string value) (k : string) (dflt : value) : value :=
  default dflt (d !! k).

(** [a or b]. *)
Definition or_else (a b : value) : value := if truthy a then a else b.

(** [classification not in ('BUY', 'SELL', 'TRANSFER')] and the two steps
    before it, on the string [str(classification)]. *)
Definition normalize_classification (s : string) : string :=
  let c := upper s in
  let c := if startswith c "PROBABLE_" then replace "PROBABLE_" "" c else c in
  if String.eqb c "BUY" || String.eqb c "SELL" || String.eqb c "TRANSFER"
  then c else "TRANSFER".

Section Sink.
(** Python's [str(v)] and [float(s)] for a string [s]. *)
Variable py_str : value -> string.
Variable float_of_string : string -> option Q.

Definition float (v : value) : exc Q :=
  match v with
  | VInt n => Ok (inject_Z n)
  | VFloat q => Ok q
  | VBool b => Ok (if b then 1%Q else 0%Q)
  | VStr s => match float_of_string s with Some q => Ok q | None => Raised end
  | _ => Raised
  end.

(** [v.lower()] / [v.upper()]: defined on strings only. *)
Definition str_lower (v : value) : exc string :=
  match v with VStr s => Ok (lower s) | _ => Raised end.

Definition str_upper (v : value) : exc string :=
  match v with VStr s => Ok (upper s) | _ => Raised end.

(** [v.lower() if v else '']. *)
Definition lower_if (v : value) : exc value :=
  if truthy v then do s <- str_lower v; Ok (VStr s) else Ok (VStr "").

(** [reasoning[:1000] if reasoning else '']. *)
Definition truncate_reasoning (v : value) : exc value :=
  if truthy v then
    match v with
    | VStr s => Ok (VStr (String.substring 0 1000 s))
    | VList l => Ok (VList (firstn 1000 l))
    | _ => Raised
    end
  else Ok (VStr "").

Definition event_timestamp (event : gmap string value) : row_timestamp :=
  let seconds (q : Q) :=
    if Qltb 0 q
    then FromEvent (if Qltb (inject_Z (10 ^ 12)) q then q / 1000 else q)%Q
    else FromClock in
  match event !! "timestamp" with
  | Some (VInt n) => seconds (inject_Z n)
  | Some (VFloat q) => seconds q
  | Some (VBool b) => seconds (if b then 1%Q else 0%Q)
  | _ => FromClock
  end.

Definition is_truthy_dict (d : option (gmap string value)) : bool :=
  match d with
  | Some m => negb (bool_decide (m = ∅))
  | None => false
  end.

Definition _map_event_to_whale_row (event : gmap string value)
    (classification_data : option (gmap string value)) : exc whale_row :=
  let tx_hash := get event "tx_hash" (get event "hash" (VStr "")) in
  let ts_iso := event_timestamp event in
  let cd := default ∅ classification_data in
  let has_cd := is_truthy_dict classification_data in
  let '(classification, confidence, whale_score, reasoning) :=
    if has_cd then
      (get cd "classification" (VStr "TRANSFER"), get cd "confidence" (VFloat 0),
       get cd "whale_score" (VFloat 0), get cd "reasoning" (VStr ""))
    else if bool_decide (is_Some (event !! "classification")) then
      (get event "classification" VNone, get event "confidence" (VFloat 0),
       get event "whale_score" (VFloat 0), get event "reasoning" (VStr ""))
    else (VStr "TRANSFER", VFloat 0, VFloat 0, VStr "") in
  let classification := normalize_classification (py_str classification) in
  let from_addr := get event "from" (get event "from_address" (VStr "")) in
  let to_addr := get event "to" (get event "to_address" (VStr "")) in
  let opt k := if has_cd then get cd k (VStr "") else VStr "" in
  let whale_address := opt "whale_address" in
  let counterparty_address := opt "counterparty_address" in
  let '(whale_address, counterparty_address) :=
    if truthy whale_address then (whale_address, counterparty_address)
    else if String.eqb classification "BUY" then (to_addr, from_addr)
    else if String.eqb classification "SELL" then (from_addr, to_addr)
    else (from_addr, counterparty_address) in
  do usd <- float (or_else (or_else (or_else (get event "estimated_usd" (VInt 0))
                                             (get event "usd_value" (VInt 0)))
                                    (get event "value_usd" (VInt 0)))
                           (VInt 0));
  do chain <- str_lower (get event "blockchain" (VStr "unknown"));
  do symbol <- str_upper (get event "symbol" (get event "token_symbol" (VStr "")));
  do score <- float whale_score;
  do whale <- lower_if whale_address;
  do counterparty <- lower_if counterparty_address;
  do from_l <- lower_if from_addr;
  do to_l <- lower_if to_addr;
  do reason <- truncate_reasoning reasoning;
  do conf <- float confidence;
  Ok {| transaction_hash := tx_hash;
        timestamp := ts_iso;
        blockchain := chain;
        token_symbol := symbol;
        classification := classification;
        usd_value := usd;
        whale_score := score;
        whale_address := whale;
        counterparty_address := counterparty;
        counterparty_type := opt "counterparty_type";
        from_address := from_l;
        to_address := to_l;
        reasoning := reason;
        confidence := conf;
        from_label := opt "from_label";
        to_label := opt "to_label" |}.

(** The storage service as [store_transaction] sees it: whether a client
    could be created, and for an upsert either an exception or whether
    [result.data] is non-empty. *)
Record storage := {
  client_available : bool;
  upsert_reply : whale_row -> exc bool
}.

(** [store_transaction]: the returned flag and the rows it tried to write. *)
Definition store_transaction (db : storage) (event : gmap string value)
    (classification_data : option (gmap string value)) : bool * list whale_row :=
  if client_available db then
    match _map_event_to_whale_row event classification_data with
    | Raised => (false, [])
    | Ok row =>
        if negb (truthy (transaction_hash row)) then (false, [])
        else if String.eqb (token_symbol row) "" then (false, [])
        else
          match upsert_reply db row with
          | Ok data => (data, [row])
          | Raised => (false, [row])
          end
    end
  else (false, []).

End Sink.
End SupabaseWriter.

(** ** Concrete instances used in the examples *)

(** A limiter with a budget of 100 cost units and a clock that stands
    still. *)
Definition small_limiter : RateLimiter.AlchemyRateLimiter :=
  RateLimiter.init 0 0 20 100.

Definition still_clock : nat -> Q := fun _ => 0%Q.

(** [wait_if_needed] came back from its loop. *)
Definition returned (o : RateLimiter.outcome) : Prop :=
  match o with
  | RateLimiter.Granted _ _ _ => True
  | RateLimiter.StillWaiting _ _ => False
  end.





(** A provider answer with status 500 whose body is a well-formed JSON-RPC
    reply, and a REST answer whose body carries an error entry. *)
Definition server_error_reply : ProviderClient.http_result :=
  ProviderClient.Response 500 (Some (Py.VDict [("result", Py.VStr "0x10")])).

Definition rest_error_reply : ProviderClient.http_result :=
  ProviderClient.Response 200 (Some (Py.VDict [("error", Py.VStr "unavailable")])).

Definition rate_limited_reply : ProviderClient.http_result :=
  ProviderClient.Response 429 None.

(** A reading of hexadecimal strings for the concrete instances: an
    optional [0x] prefix followed by at least one hexadecimal digit, on
    which it agrees with Python's [int(s, 16)]. *)
Definition hex_digit (c : ascii) : option Z :=
  let n := Z.of_nat (nat_of_ascii c) in
  if (48 <=? n) && (n <=? 57) then Some (n - 48)
  else if (97 <=? n) && (n <=? 102) then Some (n - 87)
  else if (65 <=? n) && (n <=? 70) then Some (n - 55)
  else None.

Fixpoint hex_digits (acc : Z) (s : string) : option Z :=
  match s with
  | EmptyString => Some acc
  | String c s' =>
      match hex_digit c with
      | Some d => hex_digits (16 * acc + d) s'
      | None => None
      end
  end.

Definition hex_int (s : string) : option Z :=
  let body := match s with
              | String "0"%char (String "x"%char s') => s'
              | _ => s
              end in
  match body with
  | EmptyString => None
  | _ => hex_digits 0 body
  end.

(** No base58 library at hand: [_tron_address_from_hex] falls back to the
    hexadecimal form. *)
Definition no_base58 : string -> Py.exc string := fun _ => Py.Raised.

(** Bitcoin at 50,000 USD, a threshold of 500,000 USD, and a block whose
    only output carries exactly 10 BTC. *)
Definition usd_500k : Q := 500000.


Definition ten_btc_out : Bitcoin.vout_entry :=
  {| Bitcoin.out_value := 10;
     Bitcoin.out_scriptPubKey :=
       {| Bitcoin.spk_address := Some "bc1qreceiver"; Bitcoin.spk_addresses := [] |} |}.

Definition ten_btc_tx : Bitcoin.btc_tx :=
  {| Bitcoin.txid := "f00d";
     Bitcoin.vout := [ten_btc_out];
     Bitcoin.vin := [ {| Bitcoin.prevout_address := Some "bc1qsender" |} ] |}.

Definition boundary_block : Bitcoin.btc_block :=
  {| Bitcoin.blk_time := Some 1700000000%Q; Bitcoin.blk_tx := [ten_btc_tx] |}.

(** A Tron transaction with one USDT transfer log of exactly 500,000 USDT
    (raw amount 0x746a528800 at 6 decimals) and one internal transaction
    moving 10^13 sun (10,000,000 TRX, 1,200,000 USD at 0.12 USD). *)
Definition usdt_log : Tron.log_entry :=
  {| Tron.topics := [Tron.TRANSFER_TOPIC;
                     "000000000000000000000000aaaaaaaaaaaaaaaaaaaaaaaaaaaaaaaaaaaaaaaa";
                     "000000000000000000000000bbbbbbbbbbbbbbbbbbbbbbbbbbbbbbbbbbbbbbbb"];
     Tron.log_address := "a614f803b6fd780986a42c78ec9c7f77e6ded13c";
     Tron.log_data := "746a528800" |}.

Definition trx_internal : Tron.internal_tx :=
  {| Tron.callValueInfo := [10000000000000];
     Tron.caller_address := "41aa";
     Tron.transferTo_address := "41bb" |}.

Definition tron_info : Tron.tx_info :=
  {| Tron.info_id := "beef";
     Tron.info_log := [usdt_log];
     Tron.internal_transactions := [trx_internal];
     Tron.blockTimeStamp := Some 1700000000000%Q |}.

Definition tron_world : Tron.world :=
  {| Tron.TOKEN_PRICES := ∅;
     Tron.time_now := 0;
     Tron.fetch_tron_now_block := Tron.NoBlock;
     Tron.fetch_tron_block_txinfo := fun _ => None;
     Tron.shutdown_set := fun _ => false |}.

(** The scenario of the specification: the provider lists four signatures
    for a mint, newest first, and the third is the one last processed. *)
Definition four_signatures (S5 S4 S3 S2 : string) : list Solana.sig_info :=
  [Solana.SigDict (Some S5) (Some 1700000005); Solana.SigDict (Some S4) (Some 1700000004);
   Solana.SigDict (Some S3) (Some 1700000003); Solana.SigDict (Some S2) (Some 1700000002)].

Definition bonk : Solana.mint_info :=
  {| Solana.mint := "DezXAZ8z7PnrnRJjz3wXBoRgixCa6xjnB7YaB1pPB263"; Solana.decimals := 5 |}.

Definition scenario_world : Solana.world :=
  {| Solana.fetch_solana_signatures := fun _ => Some (four_signatures "S5" "S4" "S3" "S2");
     Solana.fetch_solana_transaction := fun _ => None |}.

Definition scenario_state : Solana.state :=
  {| Solana.solana_last_processed_signature := {[ "BONK" := Some "S3" ]};
     Solana.parsed_cache := [] |}.

Definition empty_tx : Solana.tx_data :=
  {| Solana.tx_blockTime := None; Solana.instructions := [];
     Solana.innerInstructions := [] |}.

(** A Polygon provider that holds one large USDC transfer in block 10 and
    one in block 11 and honours the [order] of the request. *)
Definition usdc_polygon : Polygon.token_info :=
  {| Polygon.contract := "0x2791Bca1f2de4661ED88A30C99A7a9449Aa84174";
     Polygon.decimals := 6 |}.

Definition usdc_transfer (block_hex tx_hash : string) : Polygon.asset_transfer :=
  {| Polygon.blockNum := block_hex;
     Polygon.tr_hash := tx_hash;
     Polygon.tr_from := "0x1111";
     Polygon.tr_to := "0x2222";
     Polygon.tr_value := Some 600000%Q;
     Polygon.rawContract :=
       Some {| Polygon.rc_address := Some "0x2791bca1f2de4661ed88a30c99a7a9449aa84174";
               Polygon.rc_value := None |} |}.

Definition polygon_world : Polygon.world :=
  {| Polygon.TOKEN_PRICES := {[ "USDC" := 1%Q ]};
     Polygon.time_now := 0;
     Polygon.rpc_eth_blockNumber := Some "0xb";
     Polygon.rpc_getAssetTransfers :=
       fun params =>
         Polygon.RpcResult
           (Some (if String.eqb (Polygon.order params) "desc"
                  then [usdc_transfer "0xb" "hash11"; usdc_transfer "0xa" "hash10"]
                  else [usdc_transfer "0xa" "hash10"; usdc_transfer "0xb" "hash11"])) |}.

Definition polygon_cycle : option Z * list (string * Emission.event) :=
  Polygon.poll_cycle usd_500k [("USDC", usdc_polygon)] (Some "https://polygon.example")
                     hex_int polygon_world (Some 9).

(** The block numbers of the emissions of a Polygon cycle, in emission
    order. *)
Definition emitted_blocks (int16 : string -> option Z)
    (emissions : list (string * Emission.event)) : list (option Z) :=
  map (fun p => int16 (fst p)) emissions.

(** A Bitcoin provider at height 102 with a block holding the 10 BTC
    output at each height. *)
Definition btc_world_102 : Bitcoin.world :=
  {| Bitcoin.TOKEN_PRICES := {[ "BTC" := 50000%Q ]};
     Bitcoin.time_now := 0;
     Bitcoin.fetch_bitcoin_blockcount := Some 102;
     Bitcoin.fetch_bitcoin_blockhash := fun h => Some (HexString.of_Z h);
     Bitcoin.fetch_bitcoin_block := fun _ => Some boundary_block;
     Bitcoin.shutdown_set := fun _ => false |}.

(** The transfers of a provider answer. *)
Definition answer_of (r : Polygon.rpc_result) : list Polygon.asset_transfer :=
  match r with
  | Polygon.RpcResult (Some transfers) => transfers
  | _ => []
  end.

(** A Solana provider whose transactions each hold one BONK transfer, a
    price table, a reading of decimal strings for the amounts used here,
    and an enrichment step that accepts every event. *)
Definition bonk_transfer_tx : Solana.tx_data :=
  {| Solana.tx_blockTime := Some 1700000000;
     Solana.instructions :=
       [ {| Solana.programId := Some Solana.TOKEN_PROGRAM;
            Solana.parsed :=
              Some {| Solana.ix_type := Some "transfer";
                      Solana.ix_info :=
                        {| Solana.info_mint := Some (Solana.mint bonk);
                           Solana.info_source := Some "src";
                           Solana.info_destination := Some "dst";
                           Solana.info_amount := "900000" |} |} |} ];
     Solana.innerInstructions := [] |}.

Definition busy_world : Solana.world :=
  {| Solana.fetch_solana_signatures := fun _ => Some (four_signatures "S5" "S4" "S3" "S2");
     Solana.fetch_solana_transaction := fun _ => Some bonk_transfer_tx |}.

Definition decimal_int (s : string) : option Z :=
  if String.eqb s "900000" then Some 900000 else None.

Definition accept_all : Solana.sol_event -> option unit := fun _ => Some tt.

Definition bonk_prices : gmap string Q := {[ "BONK" := 100000%Q ]}.

(** The chain tip a Tron cycle sees. *)
Definition tron_tip (w : Tron.world) : option Z :=
  match Tron.fetch_tron_now_block w with
  | Tron.BlockHeader number => number
  | Tron.NoBlock => None
  end.

(** [str] and [float] on the values used in the sink examples, and a
    storage service that accepts every write. *)
Definition str_of_value (v : Py.value) : string :=
  match v with
  | Py.VStr s => s
  | Py.VBool true => "True"
  | Py.VBool false => "False"
  | _ => "None"
  end.

Definition no_float_strings : string -> option Q := fun _ => None.

Definition accepting_storage : SupabaseWriter.storage :=
  {| SupabaseWriter.client_available := true;
     SupabaseWriter.upsert_reply := fun _ => Py.Ok true |}.

(** An event without a transaction hash, and the same event with one. *)
Definition hashless_event : gmap string Py.value :=
  {[ "symbol" := Py.VStr "bonk"; "blockchain" := Py.VStr "Solana";
     "classification" := Py.VStr "probable_buy"; "usd_value" := Py.VInt 750000 ]}.

Definition hashed_event : gmap string Py.value :=
  <[ "tx_hash" := Py.VStr "S5" ]> hashless_event.

(** ** Further definitions: the gateway under a clock that moves *)

Module Pacing.
Import RateLimiter.





(** The cost of the calls a run admitted: it admits a prefix of the
    requested calls. *)
Definition admitted_cost (costs : list Z) (n : nat) : Z :=
  fold_right Z.add 0 (firstn n costs).

End Pacing.



(** ** Further definitions: the provider helpers of [utils/alchemy_rpc.py] *)

Module Provider.
Import Py RateLimiter ProviderClient Emission.

Definition RECEIPT_USD_THRESHOLD : Q := 50000.

(** [_CHAIN_RPC_MAP] and [_CHAIN_FALLBACK_MAP]; a chain whose endpoint is
    [None] is left out of the map. *)
Record config := {
  _CHAIN_RPC_MAP : gmap string string;
  _CHAIN_FALLBACK_MAP : gmap string string
}.

(** What a helper runs against: the passes each [wait_if_needed] loop is
    given, the clock, and what [requests.post(url, json=body)] does. *)
Record env := {
  fuel : nat;
  clock : nat -> Q;
  post : string -> value -> http_result
}.

(** A helper either returns a value, leaving the limiter and the clock
    somewhere, or is still inside a [wait_if_needed] loop. *)
Inductive run (A : Type) :=
| Done (a : A) (s : AlchemyRateLimiter) (k : nat)
| Hung (s : AlchemyRateLimiter) (k : nat).
Arguments Done {A} a s k.
Arguments Hung {A} s k.

Definition M (A : Type) : Type := env -> AlchemyRateLimiter -> nat -> run A.

Definition ret {A} (a : A) : M A := fun _ s k => Done a s k.

Definition bind {A B} (m : M A) (f : A -> M B) : M B :=
  fun e s k =>
    match m e s k with
    | Done a s' k' => f a e s' k'
    | Hung s' k' => Hung s' k'
    end.

Definition rpc_body (method : string) (params : value) : value :=
  VDict [("jsonrpc", VStr "2.0"); ("method", VStr method);
         ("params", params); ("id", VInt 1)].

Definition rpc_call (rpc_url method : string) (params : value) (cu_cost : Z) : M value :=
  fun e s k =>
    match _rpc_call (fuel e) (clock e) k s cu_cost
                    (post e rpc_url (rpc_body method params)) with
    | Returned s' v k' => Done v s' k'
    | Blocked s' k' => Hung s' k'
    end.

Definition http_call (url : string) (payload : option value) (cu_cost : Z) : M value :=
  fun e s k =>
    match _http_call (fuel e) (clock e) k s cu_cost
                     (post e url (default (VDict []) payload)) with
    | Returned s' v k' => Done v s' k'
    | Blocked s' k' => Hung s' k'
    end.

Section Helpers.
Variable cfg : config.

Definition get_alchemy_rpc (blockchain : string) : option string :=
  _CHAIN_RPC_MAP cfg !! blockchain.

Definition fetch_evm_receipt (tx_hash blockchain : string) : M value :=
  if nonempty (get_alchemy_rpc blockchain)
  then rpc_call (default "" (get_alchemy_rpc blockchain))
                "eth_getTransactionReceipt" (VList [VStr tx_hash]) 20
  else ret VNone.

Definition fetch_evm_transaction (tx_hash blockchain : string) : M value :=
  if nonempty (get_alchemy_rpc blockchain)
  then rpc_call (default "" (get_alchemy_rpc blockchain))
                "eth_getTransactionByHash" (VList [VStr tx_hash]) 20
  else ret VNone.

Definition solana_tx_params (signature : string) : value :=
  VList [VStr signature;
         VDict [("encoding", VStr "jsonParsed");
                ("maxSupportedTransactionVersion", VInt 0);
                ("commitment", VStr "confirmed")]].

Definition solana_fallback (signature : string) : M value :=
  if nonempty (_CHAIN_FALLBACK_MAP cfg !! "solana")
  then rpc_call (default "" (_CHAIN_FALLBACK_MAP cfg !! "solana"))
                "getTransaction" (solana_tx_params signature) 0
  else ret VNone.

Definition fetch_solana_transaction (signature : string) : M value :=
  if nonempty (get_alchemy_rpc "solana")
  then bind (rpc_call (default "" (get_alchemy_rpc "solana"))
                      "getTransaction" (solana_tx_params signature) 40)
            (fun result =>
               if truthy result then ret result else solana_fallback signature)
  else solana_fallback signature.

Definition fetch_solana_signatures (mint_address : string) (limit : Z)
    (before : option string) : M value :=
  let rpc_url := if nonempty (get_alchemy_rpc "solana")
                 then get_alchemy_rpc "solana"
                 else _CHAIN_FALLBACK_MAP cfg !! "solana" in
  if nonempty rpc_url then
    let params := ("limit", VInt limit)
                  :: (if nonempty before
                      then [("before", VStr (default "" before))] else []) in
    let cu := if bool_decide (rpc_url = get_alchemy_rpc "solana") then 40 else 0 in
    rpc_call (default "" rpc_url) "getSignaturesForAddress"
             (VList [VStr mint_address; VDict params]) cu
  else ret VNone.

Definition fetch_bitcoin_transaction (tx_hash : string) : M value :=
  if nonempty (get_alchemy_rpc "bitcoin")
  then rpc_call (default "" (get_alchemy_rpc "bitcoin"))
                "getrawtransaction" (VList [VStr tx_hash; VBool true]) 10
  else ret VNone.

Definition fetch_tron_transaction (tx_id : string) : M value :=
  if nonempty (get_alchemy_rpc "tron")
  then http_call (String.append (default "" (get_alchemy_rpc "tron"))
                                "/wallet/gettransactionbyid")
                 (Some (VDict [("value", VStr tx_id)])) 20
  else ret VNone.

Definition fetch_receipt_if_needed (tx_hash : string) (usd_value : Q)
    (blockchain : string) : M value :=
  if Qltb usd_value RECEIPT_USD_THRESHOLD then ret VNone
  else if String.eqb blockchain "ethereum" || String.eqb blockchain "polygon"
  then fetch_evm_receipt tx_hash blockchain
  else if String.eqb blockchain "solana" then fetch_solana_transaction tx_hash
  else if String.eqb blockchain "bitcoin" then fetch_bitcoin_transaction tx_hash
  else if String.eqb blockchain "tron" then fetch_tron_transaction tx_hash
  else ret VNone.

End Helpers.

(** The cost units a finished helper run charged. *)
Definition charged {A} (s : AlchemyRateLimiter) (r : run A) : option Z :=
  match r with
  | Done _ s' _ => Some (cu_used s' - cu_used s)
  | Hung _ _ => None
  end.

End Provider.

(** Both Solana endpoints configured; a transport whose primary endpoint
    answers with an error and whose fallback holds the transaction. *)
Definition both_endpoints : Provider.config :=
  {| Provider._CHAIN_RPC_MAP := {[ "solana" := "https://alchemy.example" ]};
     Provider._CHAIN_FALLBACK_MAP := {[ "solana" := "https://helius.example" ]} |}.

Definition primary_down : Provider.env :=
  {| Provider.fuel := 1;
     Provider.clock := still_clock;
     Provider.post := fun url _ =>
       if String.eqb url "https://helius.example"
       then ProviderClient.Response 200
              (Some (Py.VDict [("result", Py.VDict [("slot", Py.VInt 7)])]))
       else ProviderClient.Response 200
              (Some (Py.VDict [("error", Py.VStr "unavailable")])) |}.

(** ** Further definitions: what a poll cycle reads *)

Module CatchUp.
Import Py Emission.

(** The events the Bitcoin poller gets out of height [h]: the block is
    found by hash and decoded, and [e] is one of its emissions. *)
Definition bitcoin_yields (threshold : Q) (w : Bitcoin.world) (h : Z) (e : event) : Prop :=
  exists blockhash block found emitted,
    Bitcoin.fetch_bitcoin_blockhash w h = Some blockhash /\
    blockhash <> "" /\
    Bitcoin.fetch_bitcoin_block w blockhash = Some block /\
    Bitcoin._process_block threshold w block = Ok (found, emitted) /\
    In e emitted.

(** The same for the Tron poller and block [blk]. *)
Definition tron_yields (threshold : Q) (int16 : string -> option Z)
    (base58check : string -> exc string) (w : Tron.world) (blk : Z) (e : event) : Prop :=
  exists tx_infos,
    Tron.fetch_tron_block_txinfo w blk = Some tx_infos /\
    In e (snd (Tron._process_block_txinfo threshold int16 base58check w tx_infos)).

End CatchUp.

(** The Bitcoin provider at height 102 with a price table that maps BTC
    to 0. *)
Definition btc_world_free : Bitcoin.world :=
  {| Bitcoin.TOKEN_PRICES := {[ "BTC" := 0%Q ]};
     Bitcoin.time_now := 0;
     Bitcoin.fetch_bitcoin_blockcount := Some 102;
     Bitcoin.fetch_bitcoin_blockhash := fun h => Some (HexString.of_Z h);
     Bitcoin.fetch_bitcoin_block := fun _ => Some boundary_block;
     Bitcoin.shutdown_set := fun _ => false |}.

(** A Tron provider at block 7 that has the transfer of [tron_info] in
    block 6 and fails to deliver block 7. *)
Definition tron_world_7 : Tron.world :=
  {| Tron.TOKEN_PRICES := ∅;
     Tron.time_now := 0;
     Tron.fetch_tron_now_block := Tron.BlockHeader (Some 7);
     Tron.fetch_tron_block_txinfo := fun blk => if blk =? 6 then Some [tron_info] else None;
     Tron.shutdown_set := fun _ => false |}.

(** A TRC-20 transfer log of a contract the poller does not know. *)
Definition unknown_token_log : Tron.log_entry :=
  {| Tron.topics := Tron.topics usdt_log;
     Tron.log_address := "41eca9bc828a3005b9a3b909f2cc5c2a54794de05f";
     Tron.log_data := "ffffffffffffffffffffffffffffffff" |}.

Definition unknown_token_info : Tron.tx_info :=
  {| Tron.info_id := "cafe";
     Tron.info_log := [unknown_token_log; usdt_log];
     Tron.internal_transactions := [];
     Tron.blockTimeStamp := None |}.


(** ** Further definitions: the monitored Polygon contracts *)

Module Monitored.
Import Py.

(** The keys of [contract_map]: the lower-cased contract addresses. *)
Definition contract_keys (tokens : list (string * Polygon.token_info)) : list string :=
  map (fun p => lower (Polygon.contract (snd p))) tokens.

(** One step of the construction of [contract_map]. *)
Definition add_token (m : gmap string (string * Z)) (p : string * Polygon.token_info)
  : gmap string (string * Z) :=
  <[lower (Polygon.contract (snd p)) := (fst p, Polygon.decimals (snd p))]> m.

End Monitored.

(** ** Further definitions: Solana signatures, baseline and back-off *)

Module SolanaMore.
Import Py Emission Solana.

(** The signature the poller reads off an entry, if any: the entry is a
    dict and its signature is a non-empty string. *)
Definition usable (e : sig_info) : option string :=
  match e with
  | SigDict (Some s) _ => if String.eqb s "" then None else Some s
  | _ => None
  end.

Definition signatures_of (sig_infos : list sig_info) : list string :=
  omap usable sig_infos.











(** The outcome of one cycle of [print_new_solana_transfers] as far as
    the back-off goes: the fetch returned, or an exception with this
    message reached the outer handler. *)
Inductive cycle_outcome :=
| Fetched
| Failed (error_str : string).

Definition next_backoff (backoff_multiplier : Z) (o : cycle_outcome) : Z :=
  match o with
  | Fetched => 1
  | Failed error_str =>
      if contains "429" error_str || contains "rate" (lower error_str)
      then Z.min (backoff_multiplier * 2) 8
      else backoff_multiplier
  end.

(** The multiplier after a run of cycles, starting from 1. *)
Definition backoff_after (outcomes : list cycle_outcome) : Z :=
  fold_left next_backoff outcomes 1.

Definition poll_interval : Z := 60.

(** The values the multiplier takes. *)
Definition allowed (m : Z) : Prop := m = 1 \/ m = 2 \/ m = 4 \/ m = 8.

End SolanaMore.



(** A storage service whose upsert raises, and a typical event of the
    Bitcoin poller as the sink receives it. *)
Definition failing_storage : SupabaseWriter.storage :=
  {| SupabaseWriter.client_available := true;
     SupabaseWriter.upsert_reply := fun _ => Py.Raised |}.

Definition buy_event : gmap string Py.value :=
  {[ "tx_hash" := Py.VStr "F00D"; "symbol" := Py.VStr "btc";
     "blockchain" := Py.VStr "bitcoin"; "classification" := Py.VStr "buy";
     "from" := Py.VStr "BC1QSender"; "to" := Py.VStr "BC1QReceiver";
     "usd_value" := Py.VInt 750000 ]}.

(** ** Further definitions: how long a burst of calls takes *)

Module Burst.
Import RateLimiter.


End Burst.


(** ** Further definitions: where a Solana event comes from *)

Module Decoding.
Import Py Emission Solana.

(** [ix] is an SPL-token [transfer] instruction for [mint_addr] moving
    [amount] from [source] to [destination]. *)
Definition token_transfer (mint_addr : string) (ix : instruction)
    (source destination : option string) (amount : string) : Prop :=
  exists program_id p,
    programId ix = Some program_id /\
    endswith program_id TOKEN_PROGRAM = true /\
    parsed ix = Some p /\
    ix_type p = Some "transfer" /\
    info_mint (ix_info p) = Some mint_addr /\
    info_source (ix_info p) = source /\
    info_destination (ix_info p) = destination /\
    info_amount (ix_info p) = amount.

(** [ix] is a top-level or an inner instruction of [tx]. *)
Definition instruction_of (tx : tx_data) (ix : instruction) : Prop :=
  In ix (instructions tx) \/ exists group, In group (innerInstructions tx) /\ In ix group.

End Decoding.

(** ** Further definitions: [extract_solana_token_flow] *)

Module TokenFlow.
Import Py Emission.

Record token_balance := {
  accountIndex : Z;
  tb_mint : option string;
  tb_owner : option string;
  uiAmount : option Q                 (* b['uiTokenAmount']['uiAmount'] *)
}.

(** The [meta] object of a parsed transaction: [err] is [None] when the
    entry is null or absent. *)
Record tx_meta := {
  err : option value;
  preTokenBalances : list token_balance;
  postTokenBalances : list token_balance
}.

Definition USDC_MINT : string := "EPjFWdd5AufqSSqeM2qN1xzybapC8G4wEGGkZwyTDt1v".
Definition USDT_MINT : string := "Es9vMFrzaCERmJfrF4H2FYD4KCoNkY11McCe8BenwNYB".

(** [{b['accountIndex']: b for b in balances}]: a later entry replaces an
    earlier one with the same index. *)
Definition by_index (balances : list token_balance) : gmap Z token_balance :=
  foldl (fun m b => <[accountIndex b := b]> m) ∅ balances.

(** [float(b.get('uiTokenAmount', {}).get('uiAmount') or 0)], with [{}]
    for an account that has no entry. *)
Definition amount_of (b : option token_balance) : Q :=
  match b with
  | Some b => default 0%Q (uiAmount b)
  | None => 0%Q
  end.

(** [post.get('mint') or pre.get('mint', '')]. *)
Definition mint_of (pre post : option token_balance) : string :=
  if nonempty (post ≫= tb_mint) then default "" (post ≫= tb_mint)
  else default "" (pre ≫= tb_mint).

(** [sol_stablecoins.get(mint, mint[:8] if mint else 'UNKNOWN')]. *)
Definition token_name (mint : string) : string :=
  if String.eqb mint USDC_MINT then "USDC"
  else if String.eqb mint USDT_MINT then "USDT"
  else if String.eqb mint "" then "UNKNOWN"
  else String.substring 0 8 mint.

Definition stable (token : string) : bool :=
  String.eqb token "USDC" || String.eqb token "USDT".

(** The change of one account: nothing for a change below 0.001,
    otherwise the token name and whether the balance went up. *)
Definition movement (pre post : gmap Z token_balance) (idx : Z)
  : option (string * bool) :=
  let diff := (amount_of (post !! idx) - amount_of (pre !! idx))%Q in
  if Qltb (Qabs diff) (1 # 1000) then None
  else Some (token_name (mint_of (pre !! idx) (post !! idx)), Qltb 0 diff).

(** The loop over [set(list(pre_balances.keys()) + list(post_balances.keys()))]:
    the movements of all accounts. *)
Definition movements (pre post : gmap Z token_balance) : list (string * bool) :=
  omap (movement pre post) (elements (dom pre ∪ dom post)).

Definition tokens_in (ms : list (string * bool)) : list string :=
  map fst (List.filter snd ms).

Definition tokens_out (ms : list (string * bool)) : list string :=
  map fst (List.filter (fun m => negb (snd m)) ms).

Definition some (keep : string -> bool) (tokens : list string) : bool :=
  existsb keep tokens.

(** The decision on the two lists. *)
Definition direction (t_in t_out : list string) : option (string * Q) :=
  match t_in, t_out with
  | [], [] => None
  | _, _ =>
      if some stable t_out && some (fun t => negb (stable t)) t_in
      then Some ("BUY", 9 # 10)
      else if some (fun t => negb (stable t)) t_out && some stable t_in
      then Some ("SELL", 9 # 10)
      else match t_out, t_in with
           | _ :: _, _ :: _ => Some ("TRANSFER", 7 # 10)
           | _, _ => None
           end
  end.

(** [extract_solana_token_flow]: the direction and the confidence.  The
    evidence text names the first token of a list, which depends on the
    order in which Python iterates the set of account indices, and is
    not represented.  [None] for [meta] is a missing or empty one. *)
Definition extract_solana_token_flow (meta : option tx_meta) : option (string * Q) :=
  match meta with
  | None => None
  | Some meta =>
      match err meta with
      | Some _ => None
      | None =>
          let ms := movements (by_index (preTokenBalances meta))
                              (by_index (postTokenBalances meta)) in
          direction (tokens_in ms) (tokens_out ms)
      end
  end.

(** [bool(tokens)]: the list is not empty. *)
Definition filled (tokens : list string) : bool :=
  match tokens with [] => false | _ :: _ => true end.

(** An inflow taken as an outflow and an outflow as an inflow. *)
Definition flip (m : string * bool) : string * bool := (fst m, negb (snd m)).

(** The transaction read backwards: what was the balance before is the
    balance after. *)
Definition reversed (meta : tx_meta) : tx_meta :=
  {| err := err meta;
     preTokenBalances := postTokenBalances meta;
     postTokenBalances := preTokenBalances meta |}.

(** No account changes its mint within the transaction: the mint read
    with the balances exchanged is the same, for every account the loop
    visits. *)
Definition mints_agree (meta : tx_meta) : bool :=
  let pre := by_index (preTokenBalances meta) in
  let post := by_index (postTokenBalances meta) in
  forallb (fun idx => String.eqb (mint_of (post !! idx) (pre !! idx))
                                 (mint_of (pre !! idx) (post !! idx)))
          (elements (dom pre ∪ dom post)).

End TokenFlow.

(** A swap of 100 USDC for BONK: account 1 pays the stablecoin, account 2
    receives the token. *)
Definition swap_meta : TokenFlow.tx_meta :=
  {| TokenFlow.err := None;
     TokenFlow.preTokenBalances :=
       [ {| TokenFlow.accountIndex := 1; TokenFlow.tb_mint := Some TokenFlow.USDC_MINT;
            TokenFlow.tb_owner := Some "alice"; TokenFlow.uiAmount := Some 250%Q |};
         {| TokenFlow.accountIndex := 2; TokenFlow.tb_mint := Some (Solana.mint bonk);
            TokenFlow.tb_owner := Some "alice"; TokenFlow.uiAmount := None |} ];
     TokenFlow.postTokenBalances :=
       [ {| TokenFlow.accountIndex := 1; TokenFlow.tb_mint := Some TokenFlow.USDC_MINT;
            TokenFlow.tb_owner := Some "alice"; TokenFlow.uiAmount := Some 150%Q |};
         {| TokenFlow.accountIndex := 2; TokenFlow.tb_mint := Some (Solana.mint bonk);
            TokenFlow.tb_owner := Some "alice"; TokenFlow.uiAmount := Some 7000000%Q |} ] |}.
(** * Properties of the rate budget gateway *)

Module RateLimiterFacts.
Import RateLimiter.

Lemma can_request_over_budget now cu_cost s :
  monthly_budget s < cu_used s + cu_cost ->
  can_request now cu_cost s = (false, s).
Proof.
  intros H. unfold can_request.
  destruct (Z.ltb_spec (monthly_budget s) (cu_used s + cu_cost)); [reflexivity | lia].
Qed.

(** Over budget, every iteration of the loop fails the same way and leaves
    the limiter as it was. *)
Lemma wait_over_budget fuel : forall clock k cu_cost s,
  monthly_budget s < cu_used s + cu_cost ->
  wait_if_needed fuel clock k cu_cost s = StillWaiting s (k + fuel)%nat.
Proof.
  induction fuel as [|fuel IH]; intros clock k cu_cost s H; simpl.
  - f_equal. lia.
  - rewrite can_request_over_budget by assumption.
    rewrite IH by assumption. f_equal. lia.
Qed.

(** What [can_request] may change: the window fields only. *)
Lemma can_request_frame now cu_cost s ok s1 :
  can_request now cu_cost s = (ok, s1) ->
  cu_used s1 = cu_used s /\ monthly_budget s1 = monthly_budget s /\
  max_rps s1 = max_rps s /\
  (ok = true -> cu_used s + cu_cost <= monthly_budget s).
Proof.
  unfold can_request.
  destruct (Z.ltb_spec (monthly_budget s) (cu_used s + cu_cost)) as [Hlt|Hle].
  - intros [= <- <-]. repeat split; congruence.
  - destruct (Qle_bool 1 (now - _window_start s)); intros [= <- <-];
      repeat split; auto.
Qed.





End RateLimiterFacts.

(** C1, as stated, fails: a request of 101 cost units against a budget of
    100 is never answered, with a refusal or otherwise; however many
    iterations the loop is given, the call is still inside it. *)
Lemma C1_acquire_over_budget_never_returns :
  ~ exists fuel,
      returned (RateLimiter.wait_if_needed fuel still_clock 0 101 small_limiter).
Proof.
  intros [fuel H].
  rewrite RateLimiterFacts.wait_over_budget in H by (vm_compute; reflexivity).
  exact H.
Qed.

(** C1, amended: when used cost units plus the requested cost exceed the
    monthly budget, [wait_if_needed] admits nothing and consumes nothing:
    every pass of its loop leaves the limiter exactly as it was and goes to
    sleep again, so after any number [fuel] of passes the call is still
    waiting, [fuel] sleeps later. *)
Theorem C1_acquire_over_budget_blocks
    (s : RateLimiter.AlchemyRateLimiter) (cu_cost : Z)
    (fuel : nat) (clock : nat -> Q) (k : nat) :
  RateLimiter.monthly_budget s < RateLimiter.cu_used s + cu_cost ->
  RateLimiter.can_request (clock k) cu_cost s = (false, s) /\
  RateLimiter.wait_if_needed fuel clock k cu_cost s
  = RateLimiter.StillWaiting s (k + fuel)%nat.
Proof.
  intros H. split.
  - now apply RateLimiterFacts.can_request_over_budget.
  - now apply RateLimiterFacts.wait_over_budget.
Qed.

Lemma C1_acquire_over_budget_blocks_witness :
  RateLimiter.wait_if_needed 7 still_clock 0 101 small_limiter
  = RateLimiter.StillWaiting small_limiter 7.
Proof.
  apply (C1_acquire_over_budget_blocks small_limiter 101 7 still_clock 0).
  vm_compute. reflexivity.
Defined.



(** ** The per-second gate *)

Module WindowFacts.
Import RateLimiter.











End WindowFacts.




(** * Properties of the provider client *)

Module ProviderClientFacts.
Import Py RateLimiter ProviderClient.

Lemma rpc_try_not_object status data :
  match data with VDict _ => False | _ => True end ->
  catch_none (rpc_try (Response status (Some data))) = VNone.
Proof.
  intros H. unfold rpc_try. destruct (status =? 429); [reflexivity|].
  destruct data as [| | | | s | l | d]; simpl; try reflexivity.
  - destruct (contains "error" s); reflexivity.
  - destruct (existsb _ l); reflexivity.
  - destruct H.
Qed.

Lemma rpc_try_none net :
  is_429 net \/ malformed net \/ error_field net \/ transport_exception net
  \/ not_an_object net ->
  catch_none (rpc_try net) = VNone.
Proof.
  intros H. destruct net as [|status body].
  - reflexivity.
  - destruct H as [H|[H|[H|[H|H]]]]; simpl in H.
    + subst status. reflexivity.
    + destruct body; [destruct H|]. unfold rpc_try.
      destruct (status =? 429); reflexivity.
    + destruct body as [[| | | | | |d]|]; try (destruct H; fail).
      destruct H as [v Hv]. unfold rpc_try. destruct (status =? 429); [reflexivity|].
      simpl. rewrite Hv. rewrite bool_decide_true by eauto. reflexivity.
    + discriminate.
    + destruct body as [data|]; [|destruct H].
      apply rpc_try_not_object. destruct data; auto.
Qed.

Lemma http_try_none net :
  is_429 net \/ malformed net \/ transport_exception net ->
  catch_none (http_try net) = VNone.
Proof.
  intros H. destruct net as [|status body]; [reflexivity|].
  destruct H as [H|[H|H]]; simpl in H.
  - subst status. reflexivity.
  - destruct body; [destruct H|]. unfold http_try.
    destruct (status =? 429); reflexivity.
  - discriminate.
Qed.

End ProviderClientFacts.

(** C7, as stated, fails: a reply with status 500 and a well-formed body
    makes [_rpc_call] return the body's result, and a REST reply that
    carries an error entry is returned by [_http_call] as it is. *)
Lemma C7_error_replies_returned :
  ProviderClient.non_2xx server_error_reply /\
  ProviderClient._rpc_call 1 still_clock 0 small_limiter 10 server_error_reply
  = ProviderClient.Returned
      (RateLimiter.record_request 0 10 small_limiter) (Py.VStr "0x10") 2 /\
  ProviderClient.error_field rest_error_reply /\
  ProviderClient._http_call 1 still_clock 0 small_limiter 20 rest_error_reply
  = ProviderClient.Returned
      (RateLimiter.record_request 0 20 small_limiter)
      (Py.VDict [("error", Py.VStr "unavailable")]) 2.
Proof.
  split; [simpl; lia|]. split; [reflexivity|]. split; [simpl; eauto|reflexivity].
Qed.

(** C7, amended: once the gateway has admitted the call, [_rpc_call] and
    [_http_call] always return a value and raise nothing.  [_rpc_call]
    returns [None] when the status is 429, the body is not JSON or is JSON
    but not an object, the object carries an ["error"] entry, or the
    transport raises; [_http_call] returns [None] when the status is 429,
    the body is not JSON, or the transport raises.  No other status is
    looked at: with a status other than 429, [_rpc_call] returns the
    ["result"] entry of an object without an ["error"] entry and
    [_http_call] returns the parsed body whatever it carries. *)
Theorem C7_provider_call_results
    (fuel : nat) (clock : nat -> Q) (k : nat) (s : RateLimiter.AlchemyRateLimiter)
    (cu_cost : Z) (net : ProviderClient.http_result)
    (s' : RateLimiter.AlchemyRateLimiter) (t : Q) (k' : nat) :
  RateLimiter.wait_if_needed fuel clock k cu_cost s = RateLimiter.Granted s' t k' ->
  (exists v, ProviderClient._rpc_call fuel clock k s cu_cost net
             = ProviderClient.Returned s' v k') /\
  (exists v, ProviderClient._http_call fuel clock k s cu_cost net
             = ProviderClient.Returned s' v k') /\
  (ProviderClient.is_429 net \/ ProviderClient.malformed net \/
   ProviderClient.error_field net \/ ProviderClient.transport_exception net \/
   ProviderClient.not_an_object net ->
   ProviderClient._rpc_call fuel clock k s cu_cost net
   = ProviderClient.Returned s' Py.VNone k') /\
  (ProviderClient.is_429 net \/ ProviderClient.malformed net \/
   ProviderClient.transport_exception net ->
   ProviderClient._http_call fuel clock k s cu_cost net
   = ProviderClient.Returned s' Py.VNone k') /\
  (forall status d,
     net = ProviderClient.Response status (Some (Py.VDict d)) ->
     status <> 429 -> Py.assoc "error" d = None ->
     ProviderClient._rpc_call fuel clock k s cu_cost net
     = ProviderClient.Returned s' (default Py.VNone (Py.assoc "result" d)) k') /\
  (forall status data,
     net = ProviderClient.Response status (Some data) ->
     status <> 429 ->
     ProviderClient._http_call fuel clock k s cu_cost net
     = ProviderClient.Returned s' data k').
Proof.
  intros Hadm. unfold ProviderClient._rpc_call, ProviderClient._http_call.
  rewrite Hadm. repeat split.
  - eauto.
  - eauto.
  - intros H. now rewrite ProviderClientFacts.rpc_try_none.
  - intros H. now rewrite ProviderClientFacts.http_try_none.
  - intros status d -> Hs He. simpl.
    destruct (Z.eqb_spec status 429); [contradiction|].
    simpl. rewrite He. rewrite bool_decide_false by (intros [? ?]; discriminate).
    reflexivity.
  - intros status data -> Hs. simpl.
    destruct (Z.eqb_spec status 429); [contradiction|]. reflexivity.
Qed.

Lemma C7_provider_call_results_witness :
  ProviderClient._rpc_call 1 still_clock 0 small_limiter 10 rate_limited_reply
  = ProviderClient.Returned (RateLimiter.record_request 0 10 small_limiter) Py.VNone 2.
Proof.
  assert (Hadm : RateLimiter.wait_if_needed 1 still_clock 0 10 small_limiter
                 = RateLimiter.Granted (RateLimiter.record_request 0 10 small_limiter)
                                        0%Q 2%nat)
    by reflexivity.
  destruct (C7_provider_call_results 1 still_clock 0 small_limiter 10
              rate_limited_reply _ _ _ Hadm) as (_ & _ & Hnone & _).
  apply Hnone. left. reflexivity.
Defined.

(** * The USD threshold filter *)

Module ThresholdFacts.
Import Py Emission.

Lemma Qltb_false a b : Qltb a b = false <-> (b <= a)%Q.
Proof.
  unfold Qltb. rewrite negb_false_iff. apply Qle_bool_iff.
Qed.

Lemma Qltb_true a b : Qltb a b = true <-> (a < b)%Q.
Proof.
  unfold Qltb. rewrite negb_true_iff. split.
  - intros H. destruct (Qlt_le_dec a b) as [L|L]; [exact L|].
    apply Qle_bool_iff in L. congruence.
  - intros H. destruct (Qle_bool b a) eqn:E; [|reflexivity].
    apply Qle_bool_iff in E. lra.
Qed.



End ThresholdFacts.


(** The native-TRX path counts a qualifying call value but hands no event
    to [handle_event]. *)
Lemma tron_native_counted_not_emitted :
  Tron.scan_internal usd_500k tron_world trx_internal <> [] /\
  Tron._process_block_txinfo usd_500k hex_int no_base58 tron_world
    [ {| Tron.info_id := "beef"; Tron.info_log := [];
         Tron.internal_transactions := [trx_internal];
         Tron.blockTimeStamp := None |} ]
  = (1, []).
Proof. split; [vm_compute; discriminate | vm_compute; reflexivity]. Qed.



(** * Properties of the Solana poller *)

Module SolanaFacts.
Import Py Emission Solana.





(** The hashes of the results follow the signatures handed to the loop,
    whether or not the loop is left early. *)
Lemma results_follow w symbol decimals mint_addr sig_infos sigs : forall c,
  follows sigs
    (map se_tx_hash
       (results (process_signatures w symbol decimals mint_addr sig_infos sigs c))).
Proof.
  induction sigs as [|sig sigs IH]; intros c; [constructor|]. simpl.
  assert (Hpre : forall evs rest,
             Forall (fun e => se_tx_hash e = sig) evs ->
             follows sigs (map se_tx_hash rest) ->
             follows (sig :: sigs) (map se_tx_hash (evs ++ rest))).
  { intros evs rest Hevs Hrest. induction Hevs as [|e evs He _ IHe]; simpl.
    - now apply follows_next.
    - rewrite He. now apply follows_same. }
  assert (Hev : forall bt tx,
             Forall (fun e => se_tx_hash e = sig)
                    (events_of symbol decimals mint_addr sig bt tx)).
  { intros bt tx. unfold events_of. apply Forall_map. apply Forall_true.
    intros t. reflexivity. }
  assert (Hgo : forall tx c1,
             follows (sig :: sigs)
               (map se_tx_hash
                  (results
                     match (match tx_blockTime tx with
                            | Some bt => Ok (Some bt)
                            | None => entry_block_time sig sig_infos
                            end) with
                     | Raised => {| visited := [sig]; results := []; cache_after := c1;
                                    raised := true |}
                     | Ok block_time =>
                         visit sig (events_of symbol decimals mint_addr sig block_time tx)
                           (process_signatures w symbol decimals mint_addr sig_infos
                              sigs c1)
                     end))).
  { intros tx c1.
    destruct (match tx_blockTime tx with
              | Some bt => Ok (Some bt)
              | None => entry_block_time sig sig_infos
              end) as [bt|]; simpl.
    - apply Hpre; [apply Hev | apply IH].
    - constructor. }
  destruct (cache_get sig c) as [tx|].
  - apply Hgo.
  - destruct (fetch_solana_transaction w sig) as [tx|].
    + apply Hgo.
    + simpl. apply follows_next. apply IH.
Qed.

(** [poll_mint] when the answer holds new signatures. *)
Lemma poll_mint_new w symbol info st sig_infos newest :
  fetch_solana_signatures w (mint info) = Some sig_infos ->
  last (new_signatures (mjoin (solana_last_processed_signature st !! symbol)) sig_infos)
  = Some newest ->
  let p := process_signatures w symbol (decimals info) (mint info) sig_infos
             (new_signatures (mjoin (solana_last_processed_signature st !! symbol))
                             sig_infos)
             (parsed_cache st) in
  poll_mint w symbol info st
  = ({| solana_last_processed_signature :=
          <[symbol := Some newest]> (solana_last_processed_signature st);
        parsed_cache := cache_after p |}, p).
Proof.
  intros Hf Hl. unfold poll_mint. rewrite Hf.
  destruct sig_infos as [|first rest]; [discriminate Hl|].
  rewrite Hl. reflexivity.
Qed.

End SolanaFacts.



(** ** The parsed-transaction cache *)

Module CacheFacts.
Import Py Emission Solana.
















End CacheFacts.



(** * Emission order *)

Module OrderFacts.
Import Py Emission.

Lemma follows_block {A} (u : A) units xs rest :
  Forall (fun x => x = u) xs -> follows units rest ->
  follows (u :: units) (xs ++ rest).
Proof.
  intros Hxs Hrest. induction Hxs as [|x xs -> _ IH]; simpl.
  - now apply follows_next.
  - now apply follows_same.
Qed.

Lemma follows_elem {A} (units xs : list A) :
  follows units xs -> Forall (fun x => In x units) xs.
Proof.
  induction 1 as [units|u units xs _ IH|u units xs _ IH].
  - constructor.
  - constructor; [now left | exact IH].
  - eapply Forall_impl; [exact IH|]. intros x Hx. now right.
Qed.

(** What follows an ascending list of units is ascending. *)
Lemma follows_sorted units xs :
  StronglySorted Z.le units -> follows units xs -> StronglySorted Z.le xs.
Proof.
  intros Hs Hf. induction Hf as [units|u units xs Hf IH|u units xs Hf IH].
  - constructor.
  - constructor; [now apply IH|].
    apply StronglySorted_inv in Hs. destruct Hs as [_ Hall].
    pose proof (follows_elem _ _ Hf) as Hin.
    rewrite List.Forall_forall in Hin, Hall. apply List.Forall_forall.
    intros x Hx. destruct (Hin x Hx) as [<-|Hin']; [lia | now apply Hall].
  - apply IH. now apply StronglySorted_inv in Hs.
Qed.

Lemma seqZ_sorted n : forall m, StronglySorted Z.le (seqZ m (Z.of_nat n)).
Proof.
  induction n as [|n IH]; intros m.
  - constructor.
  - rewrite Nat2Z.inj_succ, seqZ_cons by lia.
    replace (Z.pred (Z.succ (Z.of_nat n))) with (Z.of_nat n) by lia.
    constructor; [apply IH|].
    apply List.Forall_forall. intros x Hx.
    apply list_elem_of_In, elem_of_seqZ in Hx. lia.
Qed.

Lemma seqZ_sorted_Z m len : StronglySorted Z.le (seqZ m len).
Proof.
  destruct (Z.le_gt_cases 0 len) as [H|H].
  - rewrite <- (Z2Nat.id len) by exact H. apply seqZ_sorted.
  - rewrite seqZ_nil by lia. constructor.
Qed.

Lemma map_fst_pair {A B} (a : A) (l : list B) :
  Forall (fun x => x = a) (map fst (map (pair a) l)).
Proof. induction l; simpl; constructor; auto. Qed.

Lemma bitcoin_scan_follows threshold w hs :
  follows hs (map fst (fst (Bitcoin.scan_heights threshold w hs))).
Proof.
  induction hs as [|h hs IH]; simpl; [constructor|].
  destruct (Bitcoin.shutdown_set w h); [constructor|].
  destruct (Bitcoin.fetch_bitcoin_blockhash w h) as [bh|]; [|now apply follows_next].
  destruct (String.eqb bh ""); [now apply follows_next|].
  destruct (Bitcoin.fetch_bitcoin_block w bh) as [block|]; [|now apply follows_next].
  destruct (Bitcoin._process_block threshold w block) as [[found emitted]|];
    [|constructor].
  destruct (Bitcoin.scan_heights threshold w hs) as [rest raised]. simpl in *.
  rewrite map_app. apply follows_block; [apply map_fst_pair | exact IH].
Qed.

Lemma tron_scan_follows threshold int16 b58 w blks :
  follows blks (map fst (Tron.scan_blocks threshold int16 b58 w blks)).
Proof.
  induction blks as [|blk blks IH]; simpl; [constructor|].
  destruct (Tron.shutdown_set w blk); [constructor|].
  destruct (Tron.fetch_tron_block_txinfo w blk) as [tx_infos|];
    [|now apply follows_next].
  rewrite map_app. apply follows_block; [apply map_fst_pair | exact IH].
Qed.

Lemma polygon_scan_follows threshold tokens int16 w transfers :
  follows (map Polygon.blockNum transfers)
          (map fst (Polygon.scan_transfers threshold tokens int16 w transfers)).
Proof.
  unfold Polygon.scan_transfers.
  induction transfers as [|tx transfers IH]; simpl; [constructor|].
  rewrite map_app. apply follows_block; [apply map_fst_pair | exact IH].
Qed.

Lemma emitted_follow {A} threshold prices int10 (enrich : Solana.sol_event -> option A)
    sigs evs :
  follows sigs (map Solana.se_tx_hash evs) ->
  follows sigs
    (map (fun x => Solana.se_tx_hash (fst (fst x)))
         (Solana.emitted threshold prices int10 A enrich evs)).
Proof.
  unfold Solana.emitted.
  remember (map Solana.se_tx_hash evs) as hs eqn:E. intros Hf. revert evs E.
  induction Hf as [units|u units xs Hf IH|u units xs Hf IH]; intros evs E.
  - destruct evs; [constructor | discriminate].
  - destruct evs as [|e evs]; [discriminate|]. simpl in E.
    injection E as Hu Hxs. simpl. rewrite map_app.
    specialize (IH evs Hxs). unfold Solana.emit.
    destruct (Solana.estimated_usd prices int10 e) as [usd|]; [|exact IH].
    destruct (Qltb usd threshold); [exact IH|].
    destruct (enrich e); [|exact IH].
    simpl. rewrite <- Hu. now apply follows_same.
  - apply follows_next. now apply IH.
Qed.

End OrderFacts.

(** C8, as stated, fails for Polygon: the poller asks the provider for the
    transfers in descending order and emits them as they come, so with a
    qualifying transfer in block 10 and one in block 11 the event of block
    11 is emitted first. *)
Lemma C8_polygon_emits_newest_first :
  emitted_blocks hex_int (snd polygon_cycle) = [Some 11; Some 10] /\
  map (fun p => Emission.ev_tx_hash (snd p)) (snd polygon_cycle) = ["hash11"; "hash10"].
Proof. split; vm_compute; reflexivity. Qed.

(** C8, amended: within a poll cycle of the Bitcoin poller and of the Tron
    poller, events are emitted in ascending block order; within a poll of
    one Solana mint, the emitted events follow the new signatures oldest
    first; the Polygon poller emits in the order in which the provider
    returns the transfers, and it requests them newest first
    (["order": "desc"]). *)
Theorem C8_emission_order :
  (forall threshold (w : Bitcoin.world) cursor,
      StronglySorted Z.le (map fst (snd (Bitcoin.poll_cycle threshold w cursor))))
  /\
  (forall threshold int16 base58check (w : Tron.world) cursor,
      StronglySorted Z.le
        (map fst (snd (Tron.poll_cycle threshold int16 base58check w cursor))))
  /\
  (forall (w : Solana.world) symbol info st sig_infos
          threshold prices int10 (A : Type) (enrich : Solana.sol_event -> option A),
      Solana.fetch_solana_signatures w (Solana.mint info) = Some sig_infos ->
      Emission.follows
        (Solana.new_signatures
           (mjoin (Solana.solana_last_processed_signature st !! symbol)) sig_infos)
        (map (fun x => Solana.se_tx_hash (fst (fst x)))
             (Solana.emitted threshold prices int10 A enrich
                (Solana.results (snd (Solana.poll_mint w symbol info st))))))
  /\
  (forall threshold tokens rpc_url int16 (w : Polygon.world) cursor,
      exists params,
        Polygon.order params = "desc" /\
        Emission.follows
          (map Polygon.blockNum (answer_of (Polygon.rpc_getAssetTransfers w params)))
          (map fst (snd (Polygon.poll_cycle threshold tokens rpc_url int16 w cursor)))).
Proof.
  split; [|split; [|split]].
  - intros g w cursor. unfold Bitcoin.poll_cycle.
    destruct (Bitcoin.fetch_bitcoin_blockcount w) as [cur|]; [|constructor].
    destruct cursor as [last|]; [|constructor].
    destruct (cur <=? last); [constructor|].
    pose proof (OrderFacts.bitcoin_scan_follows g w (seqZ (last + 1) (cur - last))) as Hf.
    destruct (Bitcoin.scan_heights g w (seqZ (last + 1) (cur - last))) as [emitted raised].
    simpl in *. eapply OrderFacts.follows_sorted; [apply OrderFacts.seqZ_sorted_Z | exact Hf].
  - intros g int16 b58 w cursor. unfold Tron.poll_cycle.
    destruct (Tron.fetch_tron_now_block w) as [|[cur|]]; try constructor.
    destruct cursor as [last|]; [|constructor].
    destruct (cur <=? last); [constructor|]. simpl.
    eapply OrderFacts.follows_sorted;
      [apply OrderFacts.seqZ_sorted_Z | apply OrderFacts.tron_scan_follows].
  - intros w symbol info st sig_infos g prices int10 A enrich Hf.
    apply OrderFacts.emitted_follow.
    unfold Solana.poll_mint. rewrite Hf.
    destruct sig_infos as [|first rest]; [constructor|].
    destruct (last _) as [newest|]; simpl.
    + apply SolanaFacts.results_follow.
    + destruct (mjoin _); constructor.
  - intros g tokens rpc_url int16 w cursor.
    set (dummy := {| Polygon.fromBlock := ""; Polygon.toBlock := "";
                     Polygon.category := []; Polygon.withMetadata := true;
                     Polygon.excludeZeroValue := true; Polygon.maxCount := "";
                     Polygon.order := "desc"; Polygon.contractAddresses := None |}).
    unfold Polygon.poll_cycle.
    destruct (Polygon._get_polygon_block_number rpc_url int16 w) as [tip|];
      [|exists dummy; split; [reflexivity | constructor]].
    destruct cursor as [last|]; [|exists dummy; split; [reflexivity | constructor]].
    destruct (tip <=? last); [exists dummy; split; [reflexivity | constructor]|].
    simpl. unfold Polygon.fetch_asset_transfers.
    destruct (Emission.nonempty rpc_url);
      [|exists dummy; split; [reflexivity | constructor]].
    match goal with
    | |- context [Polygon.rpc_getAssetTransfers w ?p] => exists p
    end.
    split; [reflexivity|].
    destruct (Polygon.rpc_getAssetTransfers w _) as [|[transfers|]]; simpl;
      try constructor.
    apply OrderFacts.polygon_scan_follows.
Qed.

Lemma C8_emission_order_witness :
  map fst (snd (Bitcoin.poll_cycle usd_500k btc_world_102 (Some 100))) = [101; 102] /\
  Emission.follows ["S4"; "S5"]
    (map (fun x => Solana.se_tx_hash (fst (fst x)))
         (Solana.emitted usd_500k bonk_prices decimal_int unit accept_all
            (Solana.results (snd (Solana.poll_mint busy_world "BONK" bonk scenario_state))))) /\
  map (fun x => Solana.se_tx_hash (fst (fst x)))
      (Solana.emitted usd_500k bonk_prices decimal_int unit accept_all
         (Solana.results (snd (Solana.poll_mint busy_world "BONK" bonk scenario_state))))
  = ["S4"; "S5"].
Proof.
  destruct C8_emission_order as (_ & _ & Hsol & _).
  split; [vm_compute; reflexivity|]. split; [|vm_compute; reflexivity].
  apply (Hsol busy_world "BONK" bonk scenario_state (four_signatures "S5" "S4" "S3" "S2")
              usd_500k bonk_prices decimal_int unit accept_all).
  reflexivity.
Defined.

(** * Cursors *)

Module CursorFacts.
Import Emission.

Lemma cursor_le_refl c : cursor_le c c.
Proof. destruct c; simpl; [lia | exact I]. Qed.

Lemma cursor_le_trans a b c : cursor_le a b -> cursor_le b c -> cursor_le a c.
Proof. destruct a, b, c; simpl; try tauto; lia. Qed.

Lemma bitcoin_cycle_le threshold w c :
  cursor_le c (fst (Bitcoin.poll_cycle threshold w c)).
Proof.
  unfold Bitcoin.poll_cycle.
  destruct (Bitcoin.fetch_bitcoin_blockcount w) as [cur|]; [|apply cursor_le_refl].
  destruct c as [last|]; [|exact I].
  destruct (Z.leb_spec cur last); [apply cursor_le_refl|].
  destruct (Bitcoin.scan_heights _ _ _) as [emitted []]; simpl; lia.
Qed.

Lemma tron_cycle_le threshold int16 b58 w c :
  cursor_le c (fst (Tron.poll_cycle threshold int16 b58 w c)).
Proof.
  unfold Tron.poll_cycle.
  destruct (Tron.fetch_tron_now_block w) as [|[cur|]]; try apply cursor_le_refl.
  destruct c as [last|]; [|exact I].
  destruct (Z.leb_spec cur last); [apply cursor_le_refl | simpl; lia].
Qed.

Lemma polygon_cycle_le threshold tokens rpc_url int16 w c :
  cursor_le c (fst (Polygon.poll_cycle threshold tokens rpc_url int16 w c)).
Proof.
  unfold Polygon.poll_cycle.
  destruct (Polygon._get_polygon_block_number rpc_url int16 w) as [tip|];
    [|apply cursor_le_refl].
  destruct c as [last|]; [|exact I].
  destruct (Z.leb_spec tip last); [apply cursor_le_refl | simpl; lia].
Qed.

(** A run of cycles never lowers the cursor, given that one cycle does not. *)
Section Runs.
Context {W : Type} (cycle : W -> option Z -> option Z)
        (run : list W -> option Z -> option Z).
Hypothesis run_nil : forall c, run [] c = c.
Hypothesis run_cons : forall w ws c, run (w :: ws) c = run ws (cycle w c).
Hypothesis cycle_le : forall w c, cursor_le c (cycle w c).

Lemma run_le ws : forall c, cursor_le c (run ws c).
Proof.
  induction ws as [|w ws IH]; intros c.
  - rewrite run_nil. apply cursor_le_refl.
  - rewrite run_cons. eapply cursor_le_trans; [apply cycle_le | apply IH].
Qed.

Lemma run_app ws1 : forall ws2 c, run (ws1 ++ ws2) c = run ws2 (run ws1 c).
Proof.
  induction ws1 as [|w ws1 IH]; intros ws2 c; simpl.
  - now rewrite run_nil.
  - now rewrite !run_cons, IH.
Qed.

Lemma run_monotone ws1 ws2 c : cursor_le (run ws1 c) (run (ws1 ++ ws2) c).
Proof. rewrite run_app. apply run_le. Qed.

End Runs.

End CursorFacts.

(** C6: for the block-height cursors of the Bitcoin, Tron and Polygon
    pollers, the cursor after any number of poll cycles is at or above the
    cursor after any smaller number of cycles; and a poller without a
    cursor takes the chain tip it has just read as its cursor, at startup
    as well as in the loop (at startup the Polygon poller leaves the
    cursor unset on a tip of 0 and the loop then seeds it). *)
Theorem C6_cursor_nondecreasing :
  (forall threshold (ws1 ws2 : list Bitcoin.world) c,
      Emission.cursor_le (Bitcoin.run_cycles threshold ws1 c)
                         (Bitcoin.run_cycles threshold (ws1 ++ ws2) c))
  /\ (forall threshold (w : Bitcoin.world),
         fst (Bitcoin.poll_cycle threshold w None) = Bitcoin.fetch_bitcoin_blockcount w
         /\ Bitcoin.startup w None = Bitcoin.fetch_bitcoin_blockcount w)
  /\ (forall threshold int16 base58check (ws1 ws2 : list Tron.world) c,
         Emission.cursor_le
           (Tron.run_cycles threshold int16 base58check ws1 c)
           (Tron.run_cycles threshold int16 base58check (ws1 ++ ws2) c))
  /\ (forall threshold int16 base58check (w : Tron.world),
         fst (Tron.poll_cycle threshold int16 base58check w None) = tron_tip w
         /\ Tron.startup w None = tron_tip w)
  /\ (forall threshold tokens rpc_url int16 (ws1 ws2 : list Polygon.world) c,
         Emission.cursor_le
           (Polygon.run_cycles threshold tokens rpc_url int16 ws1 c)
           (Polygon.run_cycles threshold tokens rpc_url int16 (ws1 ++ ws2) c))
  /\ (forall threshold tokens rpc_url int16 (w : Polygon.world),
         fst (Polygon.poll_cycle threshold tokens rpc_url int16 w None)
         = Polygon._get_polygon_block_number rpc_url int16 w
         /\ (Polygon.startup rpc_url int16 w
             = Polygon._get_polygon_block_number rpc_url int16 w
             \/ (Polygon._get_polygon_block_number rpc_url int16 w = Some 0
                 /\ Polygon.startup rpc_url int16 w = None))).
Proof.
  split; [|split; [|split; [|split; [|split]]]].
  - intros threshold ws1 ws2 c.
    apply (CursorFacts.run_monotone
             (fun w c => fst (Bitcoin.poll_cycle threshold w c))
             (Bitcoin.run_cycles threshold)); try reflexivity.
    intros w c'. apply CursorFacts.bitcoin_cycle_le.
  - intros threshold w. split.
    + unfold Bitcoin.poll_cycle.
      destruct (Bitcoin.fetch_bitcoin_blockcount w); reflexivity.
    + unfold Bitcoin.startup.
      destruct (Bitcoin.fetch_bitcoin_blockcount w); reflexivity.
  - intros threshold int16 base58check ws1 ws2 c.
    apply (CursorFacts.run_monotone
             (fun w c => fst (Tron.poll_cycle threshold int16 base58check w c))
             (Tron.run_cycles threshold int16 base58check)); try reflexivity.
    intros w c'. apply CursorFacts.tron_cycle_le.
  - intros threshold int16 base58check w. split.
    + unfold Tron.poll_cycle, tron_tip.
      destruct (Tron.fetch_tron_now_block w) as [|[n|]]; reflexivity.
    + unfold Tron.startup, tron_tip.
      destruct (Tron.fetch_tron_now_block w); reflexivity.
  - intros threshold tokens rpc_url int16 ws1 ws2 c.
    apply (CursorFacts.run_monotone
             (fun w c => fst (Polygon.poll_cycle threshold tokens rpc_url int16 w c))
             (Polygon.run_cycles threshold tokens rpc_url int16)); try reflexivity.
    intros w c'. apply CursorFacts.polygon_cycle_le.
  - intros threshold tokens rpc_url int16 w. split.
    + unfold Polygon.poll_cycle.
      destruct (Polygon._get_polygon_block_number rpc_url int16 w); reflexivity.
    + unfold Polygon.startup.
      destruct (Polygon._get_polygon_block_number rpc_url int16 w) as [tip|];
        [|now left].
      destruct (Z.eqb_spec tip 0) as [->|Hne]; [right | left]; auto.
Qed.

(** * Properties of the persistence sink *)

Module SinkFacts.
Import Py SupabaseWriter.

Lemma normalize_classification_cases s :
  normalize_classification s = "BUY" \/
  normalize_classification s = "SELL" \/
  normalize_classification s = "TRANSFER".
Proof.
  unfold normalize_classification.
  set (c := if startswith (upper s) "PROBABLE_"
            then replace "PROBABLE_" "" (upper s) else upper s).
  destruct (String.eqb_spec c "BUY") as [->|_]; [now left|].
  destruct (String.eqb_spec c "SELL") as [->|_]; [right; now left|].
  destruct (String.eqb_spec c "TRANSFER") as [->|_]; right; now right.
Qed.

Ltac step_bind :=
  match goal with
  | H : bind ?e _ = Ok _ |- _ =>
      let E := fresh "E" in
      destruct e eqn:E; simpl in H; [|discriminate H]
  end.

(** The classification of a mapped row is a normalised string. *)
Lemma mapped_classification py_str float_of_string event cd row :
  _map_event_to_whale_row py_str float_of_string event cd = Ok row ->
  exists s, classification row = normalize_classification s.
Proof.
  unfold _map_event_to_whale_row. intros H.
  destruct (is_truthy_dict cd);
    [|destruct (bool_decide (is_Some (event !! "classification")))];
    cbv beta iota zeta in H;
    match type of H with
    | context [normalize_classification ?x] => exists x
    end;
    repeat match type of H with
           | context [if ?b then _ else _] => destruct b
           end;
    repeat step_bind; injection H as <-; reflexivity.
Qed.

End SinkFacts.

Example normalize_probable_buy :
  SupabaseWriter.normalize_classification "probable_buy" = "BUY".
Proof. reflexivity. Qed.

Example normalize_unknown :
  SupabaseWriter.normalize_classification "UNKNOWN" = "TRANSFER".
Proof. reflexivity. Qed.

(** C10: whenever an event maps to a row, the row's classification is one
    of BUY, SELL and TRANSFER; and when the row's transaction hash or its
    token symbol is empty, [store_transaction] returns [False] and tries
    no write. *)
Theorem C10_store_skips_incomplete_rows
    (py_str : Py.value -> string) (float_of_string : string -> option Q)
    (db : SupabaseWriter.storage) (event : gmap string Py.value)
    (classification_data : option (gmap string Py.value))
    (row : SupabaseWriter.whale_row) :
  SupabaseWriter._map_event_to_whale_row py_str float_of_string event classification_data
  = Py.Ok row ->
  (SupabaseWriter.classification row = "BUY" \/
   SupabaseWriter.classification row = "SELL" \/
   SupabaseWriter.classification row = "TRANSFER") /\
  (Py.truthy (SupabaseWriter.transaction_hash row) = false \/
   SupabaseWriter.token_symbol row = "" ->
   SupabaseWriter.store_transaction py_str float_of_string db event classification_data
   = (false, [])).
Proof.
  intros Hmap. split.
  - destruct (SinkFacts.mapped_classification _ _ _ _ _ Hmap) as [s ->].
    apply SinkFacts.normalize_classification_cases.
  - intros Hempty. unfold SupabaseWriter.store_transaction. rewrite Hmap.
    destruct (SupabaseWriter.client_available db); [|reflexivity].
    destruct Hempty as [Hh|Hs].
    + rewrite Hh. reflexivity.
    + rewrite Hs. destruct (negb _); reflexivity.
Qed.

Lemma C10_store_skips_incomplete_rows_witness :
  SupabaseWriter.store_transaction str_of_value no_float_strings accepting_storage
    hashless_event None = (false, []) /\
  fst (SupabaseWriter.store_transaction str_of_value no_float_strings accepting_storage
         hashed_event None) = true.
Proof.
  split; [|vm_compute; reflexivity].
  destruct (SupabaseWriter._map_event_to_whale_row str_of_value no_float_strings
              hashless_event None) as [row|] eqn:Hmap; [|vm_compute in Hmap; discriminate].
  assert (Hh : Py.truthy (SupabaseWriter.transaction_hash row) = false).
  { vm_compute in Hmap. injection Hmap as <-. reflexivity. }
  exact (proj2 (C10_store_skips_incomplete_rows str_of_value no_float_strings
                  accepting_storage hashless_event None row Hmap) (or_introl Hh)).
Defined.

(** The cache at capacity: storing one more entry drops the oldest one. *)
Example cache_store_at_capacity :
  let full := map (fun n => (string_of_list_ascii (repeat "a"%char n), empty_tx))
                  (seq 0 500) in
  Solana.cache_store "fresh" empty_tx full = skipn 1 full ++ [("fresh", empty_tx)].
Proof. vm_compute. reflexivity. Qed.

(** * Further properties of the rate budget gateway *)

Module PacingFacts.
Import RateLimiter Pacing.



End PacingFacts.



Module RollingFacts.
Import RateLimiter Pacing.









End RollingFacts.



Module AccountingFacts.
Import RateLimiter Pacing.

Lemma wait_cost fuel : forall clock k cu_cost s,
  match wait_if_needed fuel clock k cu_cost s with
  | Granted s' _ _ => cu_used s' = cu_used s + cu_cost
  | StillWaiting s' _ => cu_used s' = cu_used s
  end.
Proof.
  induction fuel as [|fuel IH]; intros clock k cu_cost s; simpl; [reflexivity|].
  destruct (can_request (clock k) cu_cost s) as [ok s1] eqn:E.
  destruct (RateLimiterFacts.can_request_frame _ _ _ _ _ E) as (Hu & _).
  destruct ok; simpl; [lia|].
  specialize (IH clock (S k) cu_cost s1).
  destruct (wait_if_needed fuel clock (S k) cu_cost s1); lia.
Qed.

Lemma run_accounting fuel clock costs : forall k s log,
  exists n,
    length (snd (run_acquires fuel clock k costs s log)) = (length log + n)%nat /\
    (n <= length costs)%nat /\
    cu_used (fst (run_acquires fuel clock k costs s log))
    = cu_used s + admitted_cost costs n.
Proof.
  induction costs as [|c costs IH]; intros k s log; simpl.
  - exists 0%nat. simpl. unfold admitted_cost. simpl. repeat split; lia.
  - pose proof (wait_cost fuel clock k c s) as Hc.
    destruct (wait_if_needed fuel clock k c s) as [s' t k'|s' k'].
    + destruct (IH k' s' (log ++ [mkAdmission t (_window_start s')]))
        as (n & Hlen & Hn & Hu).
      exists (S n). rewrite length_app in Hlen. simpl in Hlen.
      unfold admitted_cost in *. simpl. repeat split; lia.
    + exists 0%nat. simpl. unfold admitted_cost. simpl. repeat split; lia.
Qed.

End AccountingFacts.

(** X3: after any run of acquires from a fresh limiter, [cu_used] is
    exactly the sum of the costs of the calls that were admitted (the
    admitted calls being a prefix of the requested ones, one log entry
    each); nothing is charged for a call that is still waiting. *)
Theorem X3_cost_accounting_exact
    (t0 t1 : Q) (max_rps monthly_cu_budget : Z)
    (fuel : nat) (clock : nat -> Q) (k : nat) (costs : list Z) :
  let run := RateLimiter.run_acquires fuel clock k costs
               (RateLimiter.init t0 t1 max_rps monthly_cu_budget) [] in
  (length (snd run) <= length costs)%nat /\
  RateLimiter.cu_used (fst run) = Pacing.admitted_cost costs (length (snd run)).
Proof.
  intros run.
  destruct (AccountingFacts.run_accounting fuel clock costs k
              (RateLimiter.init t0 t1 max_rps monthly_cu_budget) [])
    as (n & Hlen & Hn & Hu).
  fold run in Hlen, Hu. simpl in Hlen, Hu. rewrite Hlen. split; [exact Hn | exact Hu].
Qed.

(** * Properties of the provider helpers *)

Module ProviderFacts.
Import Py RateLimiter ProviderClient Emission Provider.

Lemma rpc_call_charge url method params cu_cost e s k :
  match rpc_call url method params cu_cost e s k with
  | Done _ s' _ => cu_used s' = cu_used s + cu_cost
  | Hung s' _ => cu_used s' = cu_used s
  end.
Proof.
  unfold rpc_call, _rpc_call.
  pose proof (AccountingFacts.wait_cost (fuel e) (clock e) k cu_cost s) as H.
  destruct (wait_if_needed (fuel e) (clock e) k cu_cost s); exact H.
Qed.

Lemma http_call_charge url payload cu_cost e s k :
  match http_call url payload cu_cost e s k with
  | Done _ s' _ => cu_used s' = cu_used s + cu_cost
  | Hung s' _ => cu_used s' = cu_used s
  end.
Proof.
  unfold http_call, _http_call.
  pose proof (AccountingFacts.wait_cost (fuel e) (clock e) k cu_cost s) as H.
  destruct (wait_if_needed (fuel e) (clock e) k cu_cost s); exact H.
Qed.

Lemma rpc_call_over_budget url method params cu_cost e s k :
  monthly_budget s < cu_used s + cu_cost ->
  rpc_call url method params cu_cost e s k = Hung s (k + fuel e)%nat.
Proof.
  intros H. unfold rpc_call, _rpc_call.
  now rewrite RateLimiterFacts.wait_over_budget.
Qed.

Lemma solana_fallback_charge cfg signature e s k :
  match solana_fallback cfg signature e s k with
  | Done _ s' _ => cu_used s' = cu_used s
  | Hung s' _ => cu_used s' = cu_used s
  end.
Proof.
  unfold solana_fallback.
  destruct (nonempty (_CHAIN_FALLBACK_MAP cfg !! "solana")); [|reflexivity].
  pose proof (rpc_call_charge (default "" (_CHAIN_FALLBACK_MAP cfg !! "solana"))
                "getTransaction" (solana_tx_params signature) 0 e s k) as H.
  destruct (rpc_call _ _ _ _ e s k); lia.
Qed.

Lemma fetch_solana_transaction_charge cfg signature e s k :
  match fetch_solana_transaction cfg signature e s k with
  | Done _ s' _ =>
      cu_used s' = cu_used s + (if nonempty (get_alchemy_rpc cfg "solana")
                                then 40 else 0)
  | Hung _ _ => True
  end.
Proof.
  unfold fetch_solana_transaction.
  destruct (nonempty (get_alchemy_rpc cfg "solana")).
  - unfold bind.
    pose proof (rpc_call_charge (default "" (get_alchemy_rpc cfg "solana"))
                  "getTransaction" (solana_tx_params signature) 40 e s k) as H.
    destruct (rpc_call _ _ _ _ e s k) as [result s1 k1|]; [|exact I].
    destruct (truthy result); [exact H|].
    pose proof (solana_fallback_charge cfg signature e s1 k1) as H'.
    destruct (solana_fallback cfg signature e s1 k1); [lia | exact I].
  - pose proof (solana_fallback_charge cfg signature e s k) as H.
    destruct (solana_fallback cfg signature e s k); [lia | exact I].
Qed.

End ProviderFacts.

(** X4: a finished [fetch_solana_transaction] has charged 40 cost units
    when the primary Solana endpoint is configured and nothing when only
    the fallback is: the fallback call is never charged.  When the primary
    endpoint is configured and 40 units no longer fit the budget, the
    function stays in the gateway and the free fallback is never tried. *)
Theorem X4_solana_fallback_uncharged
    (cfg : Provider.config) (signature : string) (e : Provider.env)
    (s : RateLimiter.AlchemyRateLimiter) (k : nat) :
  (forall v s' k',
      Provider.fetch_solana_transaction cfg signature e s k = Provider.Done v s' k' ->
      RateLimiter.cu_used s'
      = RateLimiter.cu_used s
        + (if Emission.nonempty (Provider.get_alchemy_rpc cfg "solana") then 40 else 0))
  /\
  (Emission.nonempty (Provider.get_alchemy_rpc cfg "solana") = true ->
   RateLimiter.monthly_budget s < RateLimiter.cu_used s + 40 ->
   Provider.fetch_solana_transaction cfg signature e s k
   = Provider.Hung s (k + Provider.fuel e)%nat).
Proof.
  split.
  - intros v s' k' H.
    pose proof (ProviderFacts.fetch_solana_transaction_charge cfg signature e s k) as C.
    rewrite H in C. exact C.
  - intros Hp Hb. unfold Provider.fetch_solana_transaction, Provider.bind.
    rewrite Hp. now rewrite ProviderFacts.rpc_call_over_budget.
Qed.

Lemma X4_solana_fallback_uncharged_witness :
  (exists s' k',
      Provider.fetch_solana_transaction both_endpoints "S5" primary_down small_limiter 0%nat
      = Provider.Done (Py.VDict [("slot", Py.VInt 7)]) s' k' /\
      RateLimiter.cu_used s' = 40 /\ RateLimiter._requests_in_window s' = 2) /\
  Provider.fetch_solana_transaction both_endpoints "S5" primary_down
    (RateLimiter.record_request 0 70 small_limiter) 0%nat
  = Provider.Hung (RateLimiter.record_request 0 70 small_limiter) 1.
Proof.
  destruct (X4_solana_fallback_uncharged both_endpoints "S5" primary_down
              small_limiter 0%nat) as [Hc _].
  destruct (X4_solana_fallback_uncharged both_endpoints "S5" primary_down
              (RateLimiter.record_request 0 70 small_limiter) 0%nat) as [_ Hh].
  split.
  - destruct (Provider.fetch_solana_transaction both_endpoints "S5" primary_down
                small_limiter 0%nat) as [v s' k'|s' k'] eqn:E;
      [|vm_compute in E; discriminate E].
    pose proof (Hc v s' k' eq_refl) as Hu.
    vm_compute in E. injection E as <- <- <-.
    do 2 eexists. split; [reflexivity|]. split; reflexivity.
  - apply Hh; vm_compute; reflexivity.
Defined.

(** X5: [fetch_receipt_if_needed] makes no provider call, and so charges
    nothing and takes no request slot, for a transaction below 50,000 USD
    and for a chain other than ethereum, polygon, solana, bitcoin and
    tron; and whatever the chain, a finished call has charged at most 40
    cost units. *)
Theorem X5_receipt_fetch_guarded
    (cfg : Provider.config) (tx_hash : string) (usd_value : Q) (blockchain : string)
    (e : Provider.env) (s : RateLimiter.AlchemyRateLimiter) (k : nat) :
  ((usd_value < Provider.RECEIPT_USD_THRESHOLD)%Q \/
   ~ In blockchain ["ethereum"; "polygon"; "solana"; "bitcoin"; "tron"] ->
   Provider.fetch_receipt_if_needed cfg tx_hash usd_value blockchain e s k
   = Provider.Done Py.VNone s k)
  /\
  (forall v s' k',
      Provider.fetch_receipt_if_needed cfg tx_hash usd_value blockchain e s k
      = Provider.Done v s' k' ->
      RateLimiter.cu_used s <= RateLimiter.cu_used s' <= RateLimiter.cu_used s + 40).
Proof.
  unfold Provider.fetch_receipt_if_needed. split.
  - intros [Hlow|Hchain].
    + apply ThresholdFacts.Qltb_true in Hlow. rewrite Hlow. reflexivity.
    + destruct (Py.Qltb usd_value Provider.RECEIPT_USD_THRESHOLD); [reflexivity|].
      simpl in Hchain.
      destruct (String.eqb_spec blockchain "ethereum") as [->|_]; [tauto|].
      destruct (String.eqb_spec blockchain "polygon") as [->|_]; [tauto|].
      destruct (String.eqb_spec blockchain "solana") as [->|_]; [tauto|].
      destruct (String.eqb_spec blockchain "bitcoin") as [->|_]; [tauto|].
      destruct (String.eqb_spec blockchain "tron") as [->|_]; [tauto|].
      reflexivity.
  - intros v s' k'.
    destruct (Py.Qltb usd_value Provider.RECEIPT_USD_THRESHOLD);
      [intros [= _ <- _]; lia|].
    destruct (String.eqb blockchain "ethereum" || String.eqb blockchain "polygon").
    { unfold Provider.fetch_evm_receipt.
      destruct (Emission.nonempty _); [|intros [= _ <- _]; lia].
      intros H. pose proof (ProviderFacts.rpc_call_charge
                              (default "" (Provider.get_alchemy_rpc cfg blockchain))
                              "eth_getTransactionReceipt"
                              (Py.VList [Py.VStr tx_hash]) 20 e s k) as C.
      rewrite H in C. lia. }
    destruct (String.eqb blockchain "solana").
    { intros H.
      pose proof (ProviderFacts.fetch_solana_transaction_charge cfg tx_hash e s k) as C.
      rewrite H in C. destruct (Emission.nonempty _); lia. }
    destruct (String.eqb blockchain "bitcoin").
    { unfold Provider.fetch_bitcoin_transaction.
      destruct (Emission.nonempty _); [|intros [= _ <- _]; lia].
      intros H. pose proof (ProviderFacts.rpc_call_charge
                              (default "" (Provider.get_alchemy_rpc cfg "bitcoin"))
                              "getrawtransaction"
                              (Py.VList [Py.VStr tx_hash; Py.VBool true]) 10 e s k) as C.
      rewrite H in C. lia. }
    destruct (String.eqb blockchain "tron").
    { unfold Provider.fetch_tron_transaction.
      destruct (Emission.nonempty _); [|intros [= _ <- _]; lia].
      intros H. pose proof (ProviderFacts.http_call_charge
                              (String.append
                                 (default "" (Provider.get_alchemy_rpc cfg "tron"))
                                 "/wallet/gettransactionbyid")
                              (Some (Py.VDict [("value", Py.VStr tx_hash)])) 20 e s k) as C.
      rewrite H in C. lia. }
    intros [= _ <- _]. lia.
Qed.

Lemma X5_receipt_fetch_guarded_witness :
  Provider.fetch_receipt_if_needed both_endpoints "S5" 49999 "solana" primary_down
    small_limiter 0%nat
  = Provider.Done Py.VNone small_limiter 0%nat.
Proof.
  destruct (X5_receipt_fetch_guarded both_endpoints "S5" 49999 "solana" primary_down
              small_limiter 0%nat) as [H _].
  apply H. left. vm_compute. reflexivity.
Defined.

(** * Catch-up of the block pollers *)

Module CatchUpFacts.
Import Py Emission CatchUp.

Lemma in_tagged {A B} (a a' : A) (b : B) (l : list B) :
  In (a', b) (map (pair a) l) <-> a' = a /\ In b l.
Proof.
  rewrite in_map_iff. split.
  - intros (x & [= <- <-] & Hx). auto.
  - intros [-> Hb]. eauto.
Qed.

Lemma bitcoin_scan_complete threshold w hs :
  (forall h, In h hs -> Bitcoin.shutdown_set w h = false) ->
  Qeq_bool (Bitcoin._btc_price w) 0 = false ->
  snd (Bitcoin.scan_heights threshold w hs) = false /\
  forall h e,
    In (h, e) (fst (Bitcoin.scan_heights threshold w hs))
    <-> In h hs /\ bitcoin_yields threshold w h e.
Proof.
  intros Hrun Hp. induction hs as [|h0 hs IH].
  - simpl. split; [reflexivity|]. intros h e. tauto.
  - assert (IH' := IH (fun h Hh => Hrun h (or_intror Hh))). clear IH.
    destruct IH' as [IHr IHe].
    assert (Hskip : forall h e,
               ~ bitcoin_yields threshold w h0 e ->
               (In (h, e) (fst (Bitcoin.scan_heights threshold w hs))
                <-> In h (h0 :: hs) /\ bitcoin_yields threshold w h e)).
    { intros h e Hno. rewrite IHe. simpl. split; [tauto|].
      intros [[<-|Hin] Hy]; [contradiction | tauto]. }
    simpl. rewrite (Hrun h0 (or_introl eq_refl)).
    destruct (Bitcoin.fetch_bitcoin_blockhash w h0) as [bh|] eqn:Eh.
    2:{ split; [exact IHr|]. intros h e. apply Hskip.
        intros (bh & ? & ? & ? & Hb & _). congruence. }
    destruct (String.eqb_spec bh "") as [->|Hne].
    { split; [exact IHr|]. intros h e. apply Hskip.
      intros (bh & ? & ? & ? & Hb & Hn & _). congruence. }
    destruct (Bitcoin.fetch_bitcoin_block w bh) as [block|] eqn:Eb.
    2:{ split; [exact IHr|]. intros h e. apply Hskip.
        intros (bh' & ? & ? & ? & Hb & _ & Hk & _). congruence. }
    unfold Bitcoin._process_block. rewrite Hp.
    destruct (Bitcoin.scan_heights threshold w hs) as [rest raised] eqn:Er.
    simpl in *. split; [exact IHr|].
    intros h e. rewrite in_app_iff, in_tagged, IHe. split.
    + intros [[-> He]|[Hin Hy]]; [|tauto].
      split; [now left|].
      exists bh, block. do 2 eexists.
      repeat split; try eassumption.
      unfold Bitcoin._process_block. rewrite Hp. reflexivity.
    + intros [[<-|Hin] Hy]; [|tauto].
      left. split; [reflexivity|].
      destruct Hy as (bh' & block' & found & emitted & Hb & _ & Hk & Hproc & He).
      rewrite Eh in Hb. injection Hb as <-. rewrite Eb in Hk. injection Hk as <-.
      unfold Bitcoin._process_block in Hproc. rewrite Hp in Hproc.
      injection Hproc as _ <-. exact He.
Qed.

Lemma tron_scan_complete threshold int16 b58 w blks :
  (forall blk, In blk blks -> Tron.shutdown_set w blk = false) ->
  forall blk e,
    In (blk, e) (Tron.scan_blocks threshold int16 b58 w blks)
    <-> In blk blks /\ tron_yields threshold int16 b58 w blk e.
Proof.
  intros Hrun. induction blks as [|b0 blks IH]; intros blk e.
  - simpl. tauto.
  - assert (IH' := IH (fun b Hb => Hrun b (or_intror Hb))). clear IH.
    simpl. rewrite (Hrun b0 (or_introl eq_refl)).
    destruct (Tron.fetch_tron_block_txinfo w b0) as [tx_infos|] eqn:Ef.
    + rewrite in_app_iff, in_tagged, IH'. unfold tron_yields. split.
      * intros [[-> He]|[Hin Hy]]; [|tauto]. split; [now left | eauto].
      * intros [[<-|Hin] Hy]; [|tauto]. left. split; [reflexivity|].
        destruct Hy as (infos & Hf & He). rewrite Ef in Hf. now injection Hf as <-.
    + rewrite IH'. split; [tauto|].
      intros [[<-|Hin] Hy]; [|tauto].
      destruct Hy as (infos & Hf & _). congruence.
Qed.

Lemma in_seqZ_range (last cur h : Z) :
  In h (seqZ (last + 1) (cur - last)) <-> last < h <= cur.
Proof. rewrite <- list_elem_of_In, elem_of_seqZ. lia. Qed.

End CatchUpFacts.

(** X6: a Bitcoin poll cycle that finds the tip above its cursor, with a
    non-zero BTC price and no shutdown request, moves the cursor to the
    tip and emits exactly the qualifying outputs of the blocks it could
    fetch at the heights after the cursor up to the tip: no such height
    is left out, and a height whose hash or block the provider did not
    deliver contributes nothing and is not retried. *)
Theorem X6_bitcoin_catch_up_complete
    (threshold : Q) (w : Bitcoin.world) (last tip : Z) :
  Bitcoin.fetch_bitcoin_blockcount w = Some tip ->
  last < tip ->
  (forall h, Bitcoin.shutdown_set w h = false) ->
  Qeq_bool (Bitcoin._btc_price w) 0 = false ->
  fst (Bitcoin.poll_cycle threshold w (Some last)) = Some tip /\
  forall h e,
    In (h, e) (snd (Bitcoin.poll_cycle threshold w (Some last)))
    <-> last < h <= tip /\ CatchUp.bitcoin_yields threshold w h e.
Proof.
  intros Htip Hlt Hrun Hp. unfold Bitcoin.poll_cycle. rewrite Htip.
  destruct (Z.leb_spec tip last); [lia|].
  destruct (CatchUpFacts.bitcoin_scan_complete threshold w
              (seqZ (last + 1) (tip - last)) (fun h _ => Hrun h) Hp) as [Hr He].
  destruct (Bitcoin.scan_heights threshold w (seqZ (last + 1) (tip - last)))
    as [emitted raised].
  simpl in *. subst raised. split; [reflexivity|].
  intros h e. rewrite He, CatchUpFacts.in_seqZ_range. reflexivity.
Qed.

Lemma X6_bitcoin_catch_up_complete_witness :
  fst (Bitcoin.poll_cycle usd_500k btc_world_102 (Some 100)) = Some 102 /\
  length (snd (Bitcoin.poll_cycle usd_500k btc_world_102 (Some 100))) = 2%nat.
Proof.
  destruct (X6_bitcoin_catch_up_complete usd_500k btc_world_102 100 102)
    as [Hc _]; try reflexivity.
  split; [exact Hc | vm_compute; reflexivity].
Defined.

(** X7: while the price table gives BTC the price 0, a Bitcoin poll cycle
    emits nothing, and as soon as it fetches the block right after its
    cursor it leaves the cursor where it was, so the same heights are
    read again in the next cycle. *)
Theorem X7_bitcoin_zero_price_stalls
    (threshold : Q) (w : Bitcoin.world) (last tip : Z)
    (blockhash : string) (block : Bitcoin.btc_block) :
  Qeq_bool (Bitcoin._btc_price w) 0 = true ->
  Bitcoin.fetch_bitcoin_blockcount w = Some tip ->
  last < tip ->
  Bitcoin.shutdown_set w (last + 1) = false ->
  Bitcoin.fetch_bitcoin_blockhash w (last + 1) = Some blockhash ->
  blockhash <> "" ->
  Bitcoin.fetch_bitcoin_block w blockhash = Some block ->
  Bitcoin.poll_cycle threshold w (Some last) = (Some last, []).
Proof.
  intros Hp Htip Hlt Hrun Hh Hne Hb. unfold Bitcoin.poll_cycle. rewrite Htip.
  destruct (Z.leb_spec tip last); [lia|].
  rewrite seqZ_cons by lia. simpl. rewrite Hrun, Hh.
  destruct (String.eqb_spec blockhash ""); [contradiction|].
  rewrite Hb. unfold Bitcoin._process_block. rewrite Hp. reflexivity.
Qed.

Lemma X7_bitcoin_zero_price_stalls_witness :
  Bitcoin.poll_cycle usd_500k btc_world_free (Some 100) = (Some 100, []).
Proof.
  apply (X7_bitcoin_zero_price_stalls usd_500k btc_world_free 100 102
           (HexString.of_Z 101) boundary_block);
    try reflexivity; try lia.
  vm_compute. discriminate.
Defined.

(** X8: a Tron poll cycle that finds the tip above its cursor always
    moves the cursor to the tip, whether or not the blocks in between
    could be fetched; without a shutdown request it emits exactly the
    qualifying TRC-20 transfers of the blocks it could fetch after the
    cursor up to the tip, and a block it could not fetch is not
    retried. *)
Theorem X8_tron_catch_up_complete
    (threshold : Q) (int16 : string -> option Z)
    (base58check : string -> Py.exc string) (w : Tron.world) (last tip : Z) :
  Tron.fetch_tron_now_block w = Tron.BlockHeader (Some tip) ->
  last < tip ->
  fst (Tron.poll_cycle threshold int16 base58check w (Some last)) = Some tip /\
  ((forall blk, Tron.shutdown_set w blk = false) ->
   forall blk e,
     In (blk, e) (snd (Tron.poll_cycle threshold int16 base58check w (Some last)))
     <-> last < blk <= tip /\ CatchUp.tron_yields threshold int16 base58check w blk e).
Proof.
  intros Htip Hlt. unfold Tron.poll_cycle. rewrite Htip.
  destruct (Z.leb_spec tip last); [lia|]. simpl. split; [reflexivity|].
  intros Hrun blk e.
  rewrite (CatchUpFacts.tron_scan_complete threshold int16 base58check w
             (seqZ (last + 1) (tip - last)) (fun b _ => Hrun b)).
  rewrite CatchUpFacts.in_seqZ_range. reflexivity.
Qed.

Lemma X8_tron_catch_up_complete_witness :
  fst (Tron.poll_cycle usd_500k hex_int no_base58 tron_world_7 (Some 5)) = Some 7 /\
  map fst (snd (Tron.poll_cycle usd_500k hex_int no_base58 tron_world_7 (Some 5))) = [6].
Proof.
  destruct (X8_tron_catch_up_complete usd_500k hex_int no_base58 tron_world_7 5 7)
    as [Hc _]; try reflexivity.
  split; [exact Hc | vm_compute; reflexivity].
Defined.

(** * Properties of the Tron decoding *)

Module TronFacts.
Import Py Emission Tron.

Lemma contract_symbol_cases contract_addr :
  contract_symbol contract_addr = ("USDT", 6) \/
  contract_symbol contract_addr = ("USDC", 6) \/
  contract_symbol contract_addr = ("TRC20", 18).
Proof.
  unfold contract_symbol.
  destruct (_ || _); [now left|].
  destruct (contains "cead2b" _); [right; now left | right; now right].
Qed.







End TronFacts.

(** X9: when the price table has no entry for the placeholder symbol
    TRC20 and the threshold is positive, the Tron poller emits events for
    USDT and USDC only: a Transfer log of any other contract is priced at
    0 and dropped, whatever amount it moves. *)
Theorem X9_tron_unknown_tokens_dropped
    (threshold : Q) (int16 : string -> option Z)
    (base58check : string -> Py.exc string) (w : Tron.world)
    (tx_infos : list Tron.tx_info) (e : Emission.event) :
  (0 < threshold)%Q ->
  Tron.TOKEN_PRICES w !! "TRC20" = None ->
  In e (snd (Tron._process_block_txinfo threshold int16 base58check w tx_infos)) ->
  Emission.ev_symbol e = "USDT" \/ Emission.ev_symbol e = "USDC".
Proof.
  intros Hpos Hprice Hin. unfold Tron._process_block_txinfo in Hin. simpl in Hin.
  apply in_flat_map in Hin. destruct Hin as (info & _ & Hin).
  apply in_flat_map in Hin. destruct Hin as (l & _ & Hin).
  unfold Tron.scan_log in Hin.
  destruct (Tron.is_transfer_log l); [|destruct Hin].
  unfold Tron.log_usd_value in Hin.
  destruct (TronFacts.contract_symbol_cases (Tron.log_address l)) as [E|[E|E]];
    rewrite E in Hin;
    destruct (if String.eqb (Tron.log_data l) "" then Some 0
              else int16 (Tron.log_data l)) as [raw|]; try destruct Hin.
  - destruct (Py.Qltb _ threshold); [destruct Hin|].
    destruct Hin as [<-|[]]. now left.
  - destruct (Py.Qltb _ threshold); [destruct Hin|].
    destruct Hin as [<-|[]]. now right.
  - rewrite Hprice in Hin. simpl in Hin.
    assert (Hlow : Py.Qltb (inject_Z raw / Tron.pow10 18 * 0) threshold = true).
    { apply ThresholdFacts.Qltb_true. lra. }
    rewrite Hlow in Hin. destruct Hin.
Qed.

Lemma X9_tron_unknown_tokens_dropped_witness :
  map Emission.ev_symbol
      (snd (Tron._process_block_txinfo usd_500k hex_int no_base58 tron_world
              [unknown_token_info])) = ["USDT"].
Proof.
  assert (H : forall e,
             In e (snd (Tron._process_block_txinfo usd_500k hex_int no_base58 tron_world
                          [unknown_token_info])) ->
             Emission.ev_symbol e = "USDT" \/ Emission.ev_symbol e = "USDC").
  { intros e. apply X9_tron_unknown_tokens_dropped; [reflexivity | reflexivity]. }
  vm_compute. reflexivity.
Defined.




(** * Properties of the Polygon decoding *)

Module PolygonFacts.
Import Py Emission Polygon Monitored.

Lemma contract_map_fold tokens : contract_map tokens = foldl Monitored.add_token ∅ tokens.
Proof. reflexivity. Qed.


Lemma fold_other tokens : forall m c,
  ~ In c (contract_keys tokens) -> foldl Monitored.add_token m tokens !! c = m !! c.
Proof.
  induction tokens as [|[sym info] tokens IH]; intros m c Hc; [reflexivity|].
  simpl in *. rewrite IH by tauto.
  unfold Monitored.add_token. simpl. apply lookup_insert_ne. tauto.
Qed.

Lemma fold_complete tokens : forall m symbol info,
  List.NoDup (contract_keys tokens) ->
  In (symbol, info) tokens ->
  foldl Monitored.add_token m tokens !! lower (contract info) = Some (symbol, decimals info).
Proof.
  induction tokens as [|[sym i] tokens IH]; intros m symbol info Hnd Hin; [destruct Hin|].
  simpl in Hnd. apply List.NoDup_cons_iff in Hnd. destruct Hnd as [Hk Hnd].
  simpl. destruct Hin as [[= -> ->]|Hin].
  - rewrite fold_other by exact Hk. unfold Monitored.add_token. simpl. apply lookup_insert_eq.
  - now apply IH.
Qed.

End PolygonFacts.



(** X13: with monitored contracts that differ in lower case, a transfer
    is recognised whatever the letter case of its contract address: when
    it carries a value, its token has a non-zero price and the value
    times the price reaches the threshold, exactly one event is emitted
    for it, with the token's symbol, that amount and that USD value. *)
Theorem X13_polygon_monitored_transfer_emitted
    (threshold : Q) (tokens : list (string * Polygon.token_info))
    (int16 : string -> option Z) (w : Polygon.world) (tx : Polygon.asset_transfer)
    (symbol : string) (info : Polygon.token_info) (raw : Polygon.raw_contract)
    (address : string) (v : Q) :
  List.NoDup (Monitored.contract_keys tokens) ->
  In (symbol, info) tokens ->
  Polygon.rawContract tx = Some raw ->
  Polygon.rc_address raw = Some address ->
  Py.lower address = Py.lower (Polygon.contract info) ->
  Polygon.tr_value tx = Some v ->
  ~ (default 0%Q (Polygon.TOKEN_PRICES w !! symbol) == 0)%Q ->
  (threshold <= v * default 0%Q (Polygon.TOKEN_PRICES w !! symbol))%Q ->
  exists e,
    Polygon.scan_transfer threshold tokens int16 w tx = [e] /\
    Emission.ev_symbol e = symbol /\
    Emission.ev_amount e = v /\
    Emission.ev_usd_value e = (v * default 0%Q (Polygon.TOKEN_PRICES w !! symbol))%Q /\
    Emission.ev_tx_hash e = Polygon.tr_hash tx.
Proof.
  intros Hnd Hin Hraw Haddr Hlow Hval Hprice Hthr.
  unfold Polygon.scan_transfer. rewrite Hraw, Hval. simpl. rewrite Haddr. simpl.
  rewrite Hlow, PolygonFacts.contract_map_fold.
  rewrite (PolygonFacts.fold_complete tokens ∅ symbol info Hnd Hin).
  destruct (Qeq_bool (default 0%Q (Polygon.TOKEN_PRICES w !! symbol)) 0) eqn:E.
  { apply Qeq_bool_iff in E. contradiction. }
  apply ThresholdFacts.Qltb_false in Hthr. rewrite Hthr.
  eexists. split; [reflexivity|]. simpl. auto.
Qed.

Lemma X13_polygon_monitored_transfer_emitted_witness :
  exists e,
    Polygon.scan_transfer usd_500k [("USDC", usdc_polygon)] hex_int polygon_world
      (usdc_transfer "0xb" "hash11") = [e] /\
    Emission.ev_symbol e = "USDC".
Proof.
  destruct (X13_polygon_monitored_transfer_emitted usd_500k [("USDC", usdc_polygon)]
              hex_int polygon_world (usdc_transfer "0xb" "hash11") "USDC" usdc_polygon
              {| Polygon.rc_address := Some "0x2791bca1f2de4661ed88a30c99a7a9449aa84174";
                 Polygon.rc_value := None |}
              "0x2791bca1f2de4661ed88a30c99a7a9449aa84174" 600000%Q)
    as (e & He & Hs & _).
  - repeat constructor. intros [].
  - left. reflexivity.
  - reflexivity.
  - reflexivity.
  - vm_compute. reflexivity.
  - reflexivity.
  - vm_compute. discriminate.
  - vm_compute. discriminate.
  - exists e. split; [exact He | exact Hs].
Defined.

(** * Further properties of the Solana poller *)

Module SignatureFacts.
Import Py Emission Solana SolanaMore.

(** Without a usable cursor, or with one that the list does not hold,
    every usable signature is collected. *)
Lemma collect_all last_sig sig_infos :
  match last_sig with
  | None => True
  | Some last => last = "" \/ ~ In last (signatures_of sig_infos)
  end ->
  collect_new last_sig sig_infos = signatures_of sig_infos.
Proof.
  intros H. induction sig_infos as [|[[s|] bt|] rest IH]; simpl; try reflexivity.
  - unfold signatures_of in *. simpl in *.
    destruct (String.eqb_spec s "") as [->|Hs].
    + apply IH. exact H.
    + destruct last_sig as [last|]; simpl.
      * destruct (String.eqb_spec last "") as [->|Hl]; simpl.
        -- f_equal. apply IH. now left.
        -- destruct H as [H|H]; [contradiction|].
           rewrite bool_decide_false
             by (intros [= ->]; apply H; simpl; now left).
           f_equal. apply IH. right. intros C. apply H. simpl. now right.
      * f_equal. now apply IH.
  - apply IH. exact H.
  - apply IH. exact H.
Qed.

(** Up to the first occurrence of the cursor, and not beyond. *)
Lemma collect_until last bt pre post :
  last <> "" -> ~ In last (signatures_of pre) ->
  collect_new (Some last) (pre ++ SigDict (Some last) bt :: post) = signatures_of pre.
Proof.
  intros Hl. induction pre as [|[[s|] b|] pre IH]; intros Hnot; simpl.
  - destruct (String.eqb_spec last ""); [contradiction|]. simpl.
    rewrite bool_decide_true by reflexivity. reflexivity.
  - unfold signatures_of in *. simpl in *.
    destruct (String.eqb_spec s "") as [->|Hs]; [now apply IH|].
    destruct (String.eqb_spec last ""); [contradiction|]. simpl.
    rewrite bool_decide_false by (intros [= ->]; apply Hnot; simpl; now left).
    f_equal. apply IH. intros C. apply Hnot. simpl. now right.
  - now apply IH.
  - now apply IH.
Qed.

End SignatureFacts.

(** X14: the boundary of a Solana poll in general.  When the last
    processed signature occurs in the provider's list, the new signatures
    are the usable ones in front of its first occurrence, oldest first;
    that occurrence and everything behind it are left alone. *)
Theorem X14_solana_exclusive_boundary
    (last : string) (blockTime : option Z) (pre post : list Solana.sig_info) :
  last <> "" ->
  ~ In last (SolanaMore.signatures_of pre) ->
  Solana.new_signatures (Some last) (pre ++ Solana.SigDict (Some last) blockTime :: post)
  = rev (SolanaMore.signatures_of pre).
Proof.
  intros Hl Hnot. unfold Solana.new_signatures.
  now rewrite SignatureFacts.collect_until.
Qed.

Lemma X14_solana_exclusive_boundary_witness :
  Solana.new_signatures (Some "S3") (four_signatures "S5" "S4" "S3" "S2") = ["S4"; "S5"].
Proof.
  apply (X14_solana_exclusive_boundary "S3" (Some 1700000003)
           [Solana.SigDict (Some "S5") (Some 1700000005);
            Solana.SigDict (Some "S4") (Some 1700000004)]
           [Solana.SigDict (Some "S2") (Some 1700000002)]).
  - discriminate.
  - simpl. intros [H|[H|[]]]; discriminate H.
Defined.

(** X15: when the cursor of a mint is unset or empty, or does not occur
    in the provider's list (the mint saw more transactions than one page
    holds), the poll takes every usable signature of the list as new and
    moves the cursor to the newest one; nothing tells it that older
    transactions were passed over. *)
Theorem X15_solana_cursor_off_page
    (w : Solana.world) (symbol : string) (info : Solana.mint_info) (st : Solana.state)
    (sig_infos : list Solana.sig_info) (newest : string) (older : list string) :
  Solana.fetch_solana_signatures w (Solana.mint info) = Some sig_infos ->
  SolanaMore.signatures_of sig_infos = newest :: older ->
  match mjoin (Solana.solana_last_processed_signature st !! symbol) with
  | None => True
  | Some last => last = "" \/ ~ In last (newest :: older)
  end ->
  Solana.new_signatures (mjoin (Solana.solana_last_processed_signature st !! symbol))
                        sig_infos
  = rev older ++ [newest] /\
  Solana.solana_last_processed_signature (fst (Solana.poll_mint w symbol info st)) !! symbol
  = Some (Some newest).
Proof.
  intros Hf Hs Hcur.
  assert (Hnew : Solana.new_signatures
                   (mjoin (Solana.solana_last_processed_signature st !! symbol)) sig_infos
                 = rev older ++ [newest]).
  { unfold Solana.new_signatures. rewrite SignatureFacts.collect_all.
    - rewrite Hs. reflexivity.
    - rewrite Hs. exact Hcur. }
  split; [exact Hnew|].
  rewrite (SolanaFacts.poll_mint_new w symbol info st sig_infos newest Hf)
    by (rewrite Hnew; apply last_snoc).
  simpl. apply lookup_insert_eq.
Qed.

Lemma X15_solana_cursor_off_page_witness :
  Solana.solana_last_processed_signature
    (fst (Solana.poll_mint scenario_world "BONK" bonk
            {| Solana.solana_last_processed_signature := {[ "BONK" := Some "S9" ]};
               Solana.parsed_cache := [] |})) !! "BONK"
  = Some (Some "S5").
Proof.
  refine (proj2 (X15_solana_cursor_off_page scenario_world "BONK" bonk _
                   (four_signatures "S5" "S4" "S3" "S2") "S5" ["S4"; "S3"; "S2"]
                   eq_refl eq_refl _)).
  vm_compute. right. intros [H|[H|[H|[H|[]]]]]; discriminate H.
Defined.

Module BaselineFacts.
Import Py Emission Solana SolanaMore.












End BaselineFacts.



Module CacheMoreFacts.
Import Py Emission Solana.




End CacheMoreFacts.



(** X18: a signature whose payload is in the cache is not fetched again.
    When every signature handed to the processing loop is cached, the
    loop gives the same visits and events whatever the provider would
    answer for a transaction, and it leaves the cache as it was. *)
Theorem X18_cached_signatures_not_refetched
    (w w' : Solana.world) (symbol : string) (decimals : Z) (mint_addr : string)
    (sig_infos : list Solana.sig_info) (sigs : list string) (c : Solana.cache) :
  (forall sig, In sig sigs -> Solana.cache_get sig c <> None) ->
  Solana.process_signatures w symbol decimals mint_addr sig_infos sigs c
  = Solana.process_signatures w' symbol decimals mint_addr sig_infos sigs c /\
  Solana.cache_after
    (Solana.process_signatures w symbol decimals mint_addr sig_infos sigs c) = c.
Proof.
  induction sigs as [|sig sigs IH]; intros Hall; [split; reflexivity|].
  assert (Hrest : forall s, In s sigs -> Solana.cache_get s c <> None)
    by (intros s Hs; apply Hall; now right).
  destruct (IH Hrest) as [IHeq IHc].
  pose proof (Hall sig (or_introl eq_refl)) as Hsig.
  simpl. destruct (Solana.cache_get sig c) as [tx|]; [|contradiction].
  destruct (match Solana.tx_blockTime tx with
            | Some bt => Py.Ok (Some bt)
            | None => Solana.entry_block_time sig sig_infos
            end); simpl.
  - rewrite IHeq. split; [reflexivity|]. rewrite <- IHeq. exact IHc.
  - split; reflexivity.
Qed.

Lemma X18_cached_signatures_not_refetched_witness :
  Solana.process_signatures scenario_world "BONK" 5 (Solana.mint bonk)
    (four_signatures "S5" "S4" "S3" "S2") ["S4"] [("S4", bonk_transfer_tx)]
  = Solana.process_signatures busy_world "BONK" 5 (Solana.mint bonk)
      (four_signatures "S5" "S4" "S3" "S2") ["S4"] [("S4", bonk_transfer_tx)].
Proof.
  refine (proj1 (X18_cached_signatures_not_refetched scenario_world busy_world "BONK" 5
                   (Solana.mint bonk) (four_signatures "S5" "S4" "S3" "S2")
                   ["S4"] [("S4", bonk_transfer_tx)] _)).
  intros sig [<-|[]]. vm_compute. discriminate.
Defined.

Module BackoffFacts.
Import Py SolanaMore.

Lemma next_backoff_allowed m o : allowed m -> allowed (next_backoff m o).
Proof.
  unfold allowed, next_backoff. intros H. destruct o as [|msg]; [now left|].
  destruct (contains "429" msg || contains "rate" (lower msg)); [|exact H].
  destruct H as [-> | [-> | [-> | ->]]]; simpl; auto.
Qed.

Lemma fold_allowed outcomes : forall m,
  allowed m -> allowed (fold_left next_backoff outcomes m).
Proof.
  induction outcomes as [|o outcomes IH]; intros m Hm; [exact Hm|].
  simpl. apply IH. now apply next_backoff_allowed.
Qed.

End BackoffFacts.

(** X19: the back-off of the Solana polling loop.  After any run of
    cycles the multiplier is 1, 2, 4 or 8, so the wait between two polls
    is between 60 and 480 seconds; a cycle whose fetch returns puts it
    back to 1, and an error whose message mentions neither 429 nor
    "rate" leaves it as it is. *)
Theorem X19_solana_backoff_bounded (outcomes : list SolanaMore.cycle_outcome) :
  let m := SolanaMore.backoff_after outcomes in
  (m = 1 \/ m = 2 \/ m = 4 \/ m = 8) /\
  60 <= SolanaMore.poll_interval * m <= 480 /\
  SolanaMore.backoff_after (outcomes ++ [SolanaMore.Fetched]) = 1 /\
  (forall error_str,
      Py.contains "429" error_str = false ->
      Py.contains "rate" (Py.lower error_str) = false ->
      SolanaMore.backoff_after (outcomes ++ [SolanaMore.Failed error_str]) = m).
Proof.
  intros m.
  assert (Hm : SolanaMore.allowed m).
  { apply BackoffFacts.fold_allowed. now left. }
  split; [exact Hm|]. split; [|split].
  - unfold SolanaMore.poll_interval. destruct Hm as [-> | [-> | [-> | ->]]]; lia.
  - unfold SolanaMore.backoff_after. rewrite fold_left_app. reflexivity.
  - intros msg H1 H2. unfold SolanaMore.backoff_after. rewrite fold_left_app. simpl.
    rewrite H1, H2. reflexivity.
Qed.

(** * Further properties of the persistence sink *)

Module SinkMoreFacts.
Import Py SupabaseWriter.

Lemma upper_lower_ascii c : upper_ascii (lower_ascii c) = upper_ascii c.
Proof. destruct c as [[] [] [] [] [] [] [] []]; reflexivity. Qed.

Lemma upper_upper_ascii c : upper_ascii (upper_ascii c) = upper_ascii c.
Proof. destruct c as [[] [] [] [] [] [] [] []]; reflexivity. Qed.

Lemma upper_lower s : upper (lower s) = upper s.
Proof.
  unfold upper, lower. induction s as [|c s IH]; simpl; [reflexivity|].
  now rewrite upper_lower_ascii, IH.
Qed.

Lemma upper_upper s : upper (upper s) = upper s.
Proof.
  unfold upper. induction s as [|c s IH]; simpl; [reflexivity|].
  now rewrite upper_upper_ascii, IH.
Qed.

End SinkMoreFacts.

(** X20: the classification written to storage does not depend on the
    letter case of the classification it is computed from, and
    normalising twice changes nothing. *)
Theorem X20_classification_case_insensitive (s : string) :
  SupabaseWriter.normalize_classification (Py.lower s)
  = SupabaseWriter.normalize_classification s /\
  SupabaseWriter.normalize_classification (Py.upper s)
  = SupabaseWriter.normalize_classification s /\
  SupabaseWriter.normalize_classification (SupabaseWriter.normalize_classification s)
  = SupabaseWriter.normalize_classification s.
Proof.
  split; [|split].
  - unfold SupabaseWriter.normalize_classification.
    now rewrite SinkMoreFacts.upper_lower.
  - unfold SupabaseWriter.normalize_classification.
    now rewrite SinkMoreFacts.upper_upper.
  - destruct (SinkFacts.normalize_classification_cases s) as [-> | [-> | ->]];
      reflexivity.
Qed.

(** X21: [store_transaction] tries at most one write, and only of a
    complete row: the row the event maps to, with a non-empty transaction
    hash and token symbol.  It returns [True] only when that write was
    made and the storage answered with data; when no client can be
    created or the upsert raises it returns [False]. *)
Theorem X21_store_writes_complete_rows
    (py_str : Py.value -> string) (float_of_string : string -> option Q)
    (db : SupabaseWriter.storage) (event : gmap string Py.value)
    (classification_data : option (gmap string Py.value)) :
  let result := SupabaseWriter.store_transaction py_str float_of_string db event
                  classification_data in
  (snd result = [] \/
   exists row,
     snd result = [row] /\
     SupabaseWriter._map_event_to_whale_row py_str float_of_string event
       classification_data = Py.Ok row /\
     Py.truthy (SupabaseWriter.transaction_hash row) = true /\
     SupabaseWriter.token_symbol row <> "") /\
  (fst result = true ->
   exists row, snd result = [row] /\ SupabaseWriter.upsert_reply db row = Py.Ok true) /\
  (SupabaseWriter.client_available db = false -> result = (false, [])) /\
  ((forall row, SupabaseWriter.upsert_reply db row = Py.Raised) -> fst result = false).
Proof.
  unfold SupabaseWriter.store_transaction.
  destruct (SupabaseWriter.client_available db).
  2:{ simpl. repeat split; auto; discriminate. }
  destruct (SupabaseWriter._map_event_to_whale_row py_str float_of_string event
              classification_data) as [row|].
  2:{ simpl. repeat split; auto; discriminate. }
  destruct (Py.truthy (SupabaseWriter.transaction_hash row)) eqn:Hh; simpl.
  2:{ repeat split; auto; discriminate. }
  destruct (String.eqb_spec (SupabaseWriter.token_symbol row) "") as [Hs|Hs].
  { simpl. repeat split; auto; discriminate. }
  destruct (SupabaseWriter.upsert_reply db row) as [data|] eqn:Hu; simpl.
  - split; [right; exists row; auto|]. split; [|split].
    + intros ->. exists row. auto.
    + discriminate.
    + intros Hall. rewrite Hall in Hu. discriminate.
  - split; [right; exists row; auto|]. split; [discriminate|]. split; auto; discriminate.
Qed.

Module RowFacts.
Import Py SupabaseWriter.

Lemma lower_if_str s : lower_if (VStr s) = Ok (VStr (lower s)).
Proof.
  unfold lower_if. simpl. destruct (String.eqb_spec s "") as [->|_]; reflexivity.
Qed.


(** Without classification data, the roles in a mapped row follow the
    direction. *)
Lemma mapped_roles py_str float_of_string event row :
  _map_event_to_whale_row py_str float_of_string event None = Ok row ->
  let from_addr := get event "from" (get event "from_address" (VStr "")) in
  let to_addr := get event "to" (get event "to_address" (VStr "")) in
  (classification row = "BUY" ->
   lower_if to_addr = Ok (whale_address row) /\
   lower_if from_addr = Ok (counterparty_address row)) /\
  (classification row = "SELL" ->
   lower_if from_addr = Ok (whale_address row) /\
   lower_if to_addr = Ok (counterparty_address row)) /\
  (classification row = "TRANSFER" ->
   lower_if from_addr = Ok (whale_address row) /\
   counterparty_address row = VStr "").
Proof.
  unfold _map_event_to_whale_row. intros H. simpl is_truthy_dict in H.
  cbv beta iota zeta in H.
  destruct (bool_decide (is_Some (event !! "classification")));
    cbv beta iota zeta in H; simpl truthy in H; cbv iota in H;
    match type of H with
    | context [String.eqb ?c "BUY"] =>
        destruct (String.eqb_spec c "BUY") as [Eb|Eb];
        [|destruct (String.eqb_spec c "SELL") as [Es|Es]]
    end;
    cbv beta iota zeta in H;
    repeat SinkFacts.step_bind; injection H as <-; simpl;
    (split; [|split]); intros Hc;
    first [split; reflexivity | congruence].
Qed.

End RowFacts.

(** X22: without classification data, the roles in the stored row follow
    the direction: for a BUY the whale is the receiving address and the
    counterparty the sending one, for a SELL it is the other way round,
    and for a TRANSFER the whale is the sender and no counterparty is
    recorded; the addresses are stored in lower case. *)
Theorem X22_whale_roles_follow_direction
    (py_str : Py.value -> string) (float_of_string : string -> option Q)
    (event : gmap string Py.value) (row : SupabaseWriter.whale_row)
    (from_addr to_addr : string) :
  SupabaseWriter._map_event_to_whale_row py_str float_of_string event None = Py.Ok row ->
  event !! "from" = Some (Py.VStr from_addr) ->
  event !! "to" = Some (Py.VStr to_addr) ->
  (SupabaseWriter.classification row = "BUY" ->
   SupabaseWriter.whale_address row = Py.VStr (Py.lower to_addr) /\
   SupabaseWriter.counterparty_address row = Py.VStr (Py.lower from_addr)) /\
  (SupabaseWriter.classification row = "SELL" ->
   SupabaseWriter.whale_address row = Py.VStr (Py.lower from_addr) /\
   SupabaseWriter.counterparty_address row = Py.VStr (Py.lower to_addr)) /\
  (SupabaseWriter.classification row = "TRANSFER" ->
   SupabaseWriter.whale_address row = Py.VStr (Py.lower from_addr) /\
   SupabaseWriter.counterparty_address row = Py.VStr "").
Proof.
  intros Hmap Hf Ht.
  pose proof (RowFacts.mapped_roles py_str float_of_string event row Hmap) as H.
  cbv zeta in H. unfold SupabaseWriter.get in H. rewrite Hf, Ht in H. simpl in H.
  rewrite !RowFacts.lower_if_str in H.
  destruct H as (Hb & Hs & Htr). split; [|split]; intros Hc.
  - destruct (Hb Hc) as [[= <-] [= <-]]. auto.
  - destruct (Hs Hc) as [[= <-] [= <-]]. auto.
  - destruct (Htr Hc) as [[= <-] ->]. auto.
Qed.

Lemma X22_whale_roles_follow_direction_witness :
  exists row,
    SupabaseWriter._map_event_to_whale_row str_of_value no_float_strings buy_event None
    = Py.Ok row /\
    SupabaseWriter.whale_address row = Py.VStr "bc1qreceiver" /\
    SupabaseWriter.counterparty_address row = Py.VStr "bc1qsender".
Proof.
  destruct (SupabaseWriter._map_event_to_whale_row str_of_value no_float_strings
              buy_event None) as [row|] eqn:Hmap; [|vm_compute in Hmap; discriminate].
  exists row. split; [reflexivity|].
  destruct (X22_whale_roles_follow_direction str_of_value no_float_strings buy_event row
              "BC1QSender" "BC1QReceiver" Hmap) as (Hb & _ & _).
  - vm_compute. reflexivity.
  - vm_compute. reflexivity.
  - apply Hb. vm_compute in Hmap. injection Hmap as <-. reflexivity.
Defined.



(** * How long a burst of calls takes *)

Module BurstFacts.
Import RateLimiter Pacing Burst.





End BurstFacts.



(** * Decoding and emission of Solana events *)

Module DecodingFacts.
Import Py Emission Solana Decoding.

Lemma extracted_sound mint_addr ixs x :
  In x (extract_transfers_from_instructions mint_addr ixs) ->
  exists ix, In ix ixs /\
             token_transfer mint_addr ix (x_source x) (x_destination x) (x_amount x).
Proof.
  unfold extract_transfers_from_instructions. intros H.
  apply in_flat_map in H. destruct H as (ix & Hix & H).
  exists ix. split; [exact Hix|].
  destruct (programId ix) as [program_id|] eqn:Hp; [|destruct H].
  destruct (negb (String.eqb program_id "") && endswith program_id TOKEN_PROGRAM)
    eqn:Hprog; [|destruct H].
  apply andb_true_iff in Hprog. destruct Hprog as [_ Hend].
  destruct (parsed ix) as [p|] eqn:Hpar; [|destruct H].
  destruct (bool_decide (ix_type p = Some "transfer")
            && bool_decide (info_mint (ix_info p) = Some mint_addr)) eqn:Hm;
    [|destruct H].
  apply andb_true_iff in Hm. destruct Hm as [Ht Hmint].
  apply bool_decide_eq_true in Ht, Hmint.
  destruct H as [<-|[]]. simpl.
  exists program_id, p. repeat split; assumption.
Qed.

Lemma transfers_sound mint_addr tx x :
  In x (transfers_extracted mint_addr tx) ->
  exists ix, instruction_of tx ix /\
             token_transfer mint_addr ix (x_source x) (x_destination x) (x_amount x).
Proof.
  unfold transfers_extracted, instruction_of. intros H. apply in_app_iff in H.
  destruct H as [H|H].
  - apply extracted_sound in H. destruct H as (ix & Hin & Ht).
    exists ix. split; [now left | exact Ht].
  - apply in_flat_map in H. destruct H as (group & Hg & H).
    apply extracted_sound in H. destruct H as (ix & Hin & Ht).
    exists ix. split; [right; exists group; auto | exact Ht].
Qed.

Lemma events_sound symbol decimals mint_addr sig bt tx ev :
  In ev (events_of symbol decimals mint_addr sig bt tx) ->
  se_symbol ev = symbol /\ se_decimals ev = decimals /\ se_tx_hash ev = sig /\
  se_raw_tx ev = tx /\
  exists ix, instruction_of tx ix /\
             token_transfer mint_addr ix (se_from ev) (se_to ev) (se_amount ev).
Proof.
  unfold events_of. intros H. apply in_map_iff in H. destruct H as (x & <- & Hx).
  simpl. repeat split. now apply transfers_sound.
Qed.

Lemma results_sound w symbol decimals mint_addr sig_infos sigs : forall c ev,
  In ev (results (process_signatures w symbol decimals mint_addr sig_infos sigs c)) ->
  se_symbol ev = symbol /\ se_decimals ev = decimals /\
  In (se_tx_hash ev)
     (visited (process_signatures w symbol decimals mint_addr sig_infos sigs c)) /\
  exists ix, instruction_of (se_raw_tx ev) ix /\
             token_transfer mint_addr ix (se_from ev) (se_to ev) (se_amount ev).
Proof.
  induction sigs as [|sig sigs IH]; intros c ev H; [destruct H|].
  assert (Hgo : forall tx c1,
             let p := match (match tx_blockTime tx with
                             | Some bt => Ok (Some bt)
                             | None => entry_block_time sig sig_infos
                             end) with
                      | Raised => {| visited := [sig]; results := []; cache_after := c1;
                                     raised := true |}
                      | Ok block_time =>
                          visit sig (events_of symbol decimals mint_addr sig block_time tx)
                            (process_signatures w symbol decimals mint_addr sig_infos
                               sigs c1)
                      end in
             In ev (results p) ->
             se_symbol ev = symbol /\ se_decimals ev = decimals /\
             In (se_tx_hash ev) (visited p) /\
             exists ix, instruction_of (se_raw_tx ev) ix /\
                        token_transfer mint_addr ix (se_from ev) (se_to ev)
                                       (se_amount ev)).
  { intros tx c1.
    destruct (match tx_blockTime tx with
              | Some bt => Ok (Some bt)
              | None => entry_block_time sig sig_infos
              end) as [bt|]; simpl; intros Hin; [|destruct Hin].
    apply in_app_iff in Hin. destruct Hin as [Hin|Hin].
    - apply events_sound in Hin. destruct Hin as (H1 & H2 & H3 & H4 & H5).
      rewrite H4. repeat split; auto.
    - destruct (IH c1 ev Hin) as (H1 & H2 & H3 & H4). repeat split; auto. }
  simpl in H |- *. destruct (cache_get sig c) as [tx|].
  - now apply (Hgo tx c).
  - destruct (fetch_solana_transaction w sig) as [tx|].
    + now apply (Hgo tx (cache_store sig tx c)).
    + simpl in H |- *. destruct (IH c ev H) as (H1 & H2 & H3 & H4).
      repeat split; auto.
Qed.

End DecodingFacts.

(** X25: the Solana loop hands an event to [handle_event] if and only if
    its amount reads as an integer, its estimated USD value (amount over
    10 to the decimals, times the price of its symbol, 0 when the symbol
    has no price) is at least the threshold, and the enrichment step
    returns something for it. *)
Theorem X25_solana_emitted_iff
    (threshold : Q) (prices : gmap string Q) (int10 : string -> option Z)
    (A : Type) (enrich : Solana.sol_event -> option A)
    (transfers : list Solana.sol_event) (ev : Solana.sol_event) (e : A) (usd : Q) :
  In (ev, e, usd) (Solana.emitted threshold prices int10 A enrich transfers)
  <-> In ev transfers /\
      Solana.estimated_usd prices int10 ev = Some usd /\
      (threshold <= usd)%Q /\
      enrich ev = Some e.
Proof.
  unfold Solana.emitted. rewrite in_flat_map. unfold Solana.emit. split.
  - intros (ev' & Hin & H).
    destruct (Solana.estimated_usd prices int10 ev') as [usd'|] eqn:Hu; [|destruct H].
    destruct (Py.Qltb usd' threshold) eqn:Ht; [destruct H|].
    destruct (enrich ev') as [e'|] eqn:He; [|destruct H].
    destruct H as [[= -> -> ->]|[]].
    apply ThresholdFacts.Qltb_false in Ht. auto.
  - intros (Hin & Hu & Ht & He). exists ev. split; [exact Hin|].
    rewrite Hu. apply ThresholdFacts.Qltb_false in Ht. rewrite Ht, He. now left.
Qed.

(** X26: every event a poll of one mint returns carries the symbol and
    the decimals of that token and the hash of one of the new signatures,
    and it was read off an SPL-token [transfer] instruction for that mint
    (top-level or inner) of the transaction stored with the event, whose
    source, destination and amount it carries; instructions of other
    programs, other types or other mints yield no event. *)
Theorem X26_solana_events_decoded
    (w : Solana.world) (symbol : string) (info : Solana.mint_info) (st : Solana.state)
    (ev : Solana.sol_event) :
  In ev (Solana.results (snd (Solana.poll_mint w symbol info st))) ->
  Solana.se_symbol ev = symbol /\
  Solana.se_decimals ev = Solana.decimals info /\
  In (Solana.se_tx_hash ev) (Solana.visited (snd (Solana.poll_mint w symbol info st))) /\
  exists ix,
    Decoding.instruction_of (Solana.se_raw_tx ev) ix /\
    Decoding.token_transfer (Solana.mint info) ix
      (Solana.se_from ev) (Solana.se_to ev) (Solana.se_amount ev).
Proof.
  unfold Solana.poll_mint.
  destruct (Solana.fetch_solana_signatures w (Solana.mint info)) as [[|first rest]|];
    try (intros []).
  destruct (last _) as [newest|]; simpl.
  - apply DecodingFacts.results_sound.
  - destruct (mjoin _); intros [].
Qed.

Lemma X26_solana_events_decoded_witness :
  exists ev,
    In ev (Solana.results (snd (Solana.poll_mint busy_world "BONK" bonk scenario_state))) /\
    Solana.se_symbol ev = "BONK" /\ Solana.se_amount ev = "900000".
Proof.
  assert (Hin : In (hd {| Solana.se_from := None; Solana.se_to := None;
                          Solana.se_symbol := ""; Solana.se_amount := "";
                          Solana.se_tx_hash := ""; Solana.se_timestamp := None;
                          Solana.se_decimals := 0; Solana.se_raw_tx := empty_tx |}
                       (Solana.results
                          (snd (Solana.poll_mint busy_world "BONK" bonk scenario_state))))
                   (Solana.results
                      (snd (Solana.poll_mint busy_world "BONK" bonk scenario_state))))
    by (vm_compute; left; reflexivity).
  eexists. split; [exact Hin|].
  split.
  - exact (proj1 (X26_solana_events_decoded busy_world "BONK" bonk scenario_state _ Hin)).
  - vm_compute. reflexivity.
Defined.

(** * Properties of the Solana token flow *)

Example swap_is_buy :
  TokenFlow.extract_solana_token_flow (Some swap_meta) = Some ("BUY", 9 # 10) /\
  TokenFlow.extract_solana_token_flow (Some (TokenFlow.reversed swap_meta))
  = Some ("SELL", 9 # 10).
Proof. split; vm_compute; reflexivity. Qed.

Module TokenFlowFacts.
Import Py TokenFlow.

Lemma Qltb_compat (a a' c : Q) : (a == a')%Q -> Qltb a c = Qltb a' c.
Proof.
  intros E. destruct (Qltb a' c) eqn:H.
  - apply ThresholdFacts.Qltb_true in H. apply ThresholdFacts.Qltb_true.
    now rewrite E.
  - apply ThresholdFacts.Qltb_false in H. apply ThresholdFacts.Qltb_false.
    now rewrite E.
Qed.

Lemma in_tokens_in ms t : In t (tokens_in ms) <-> In (t, true) ms.
Proof.
  unfold tokens_in. rewrite in_map_iff. split.
  - intros ([t' b] & E & Hin). apply filter_In in Hin as [Hin Hb].
    simpl in *. now subst.
  - intros Hin. exists (t, true). split; [reflexivity|].
    apply filter_In. auto.
Qed.

Lemma in_tokens_out ms t : In t (tokens_out ms) <-> In (t, false) ms.
Proof.
  unfold tokens_out. rewrite in_map_iff. split.
  - intros ([t' b] & E & Hin). apply filter_In in Hin as [Hin Hb].
    simpl in *. destruct b; [discriminate|]. now subst.
  - intros Hin. exists (t, false). split; [reflexivity|].
    apply filter_In. auto.
Qed.

Lemma in_movements pre post m :
  In m (movements pre post) <->
  exists idx, idx ∈ dom pre ∪ dom post /\ movement pre post idx = Some m.
Proof.
  unfold movements. rewrite <- list_elem_of_In, list_elem_of_omap.
  split; intros (idx & H & E); exists idx; (split; [|exact E]).
  - now apply elem_of_elements in H.
  - now apply elem_of_elements.
Qed.

(** A recorded inflow is a rise of at least 0.001, a recorded outflow a
    fall of at least 0.001. *)
Lemma movement_in pre post idx t :
  movement pre post idx = Some (t, true) ->
  (1 # 1000 <= amount_of (post !! idx) - amount_of (pre !! idx))%Q.
Proof.
  unfold movement.
  destruct (Qltb (Qabs _) _) eqn:Hs; [discriminate|].
  intros [= _ Hd]. apply ThresholdFacts.Qltb_false in Hs.
  apply ThresholdFacts.Qltb_true in Hd.
  rewrite Qabs_pos in Hs by lra. exact Hs.
Qed.

Lemma movement_out pre post idx t :
  movement pre post idx = Some (t, false) ->
  (amount_of (post !! idx) - amount_of (pre !! idx) <= - (1 # 1000))%Q.
Proof.
  unfold movement.
  destruct (Qltb (Qabs _) _) eqn:Hs; [discriminate|].
  intros [= _ Hd]. apply ThresholdFacts.Qltb_false in Hs.
  apply ThresholdFacts.Qltb_false in Hd.
  rewrite Qabs_neg in Hs by lra. lra.
Qed.

(** The decision as one chain of tests. *)
Lemma direction_chain t_in t_out :
  direction t_in t_out =
  if some stable t_out && some (fun t => negb (stable t)) t_in
  then Some ("BUY", 9 # 10)
  else if some (fun t => negb (stable t)) t_out && some stable t_in
  then Some ("SELL", 9 # 10)
  else if filled t_out && filled t_in then Some ("TRANSFER", 7 # 10)
  else None.
Proof.
  destruct t_in as [|a t_in], t_out as [|b t_out]; reflexivity.
Qed.

Lemma some_filled keep tokens : some keep tokens = true -> filled tokens = true.
Proof. destruct tokens; [discriminate|reflexivity]. Qed.

Lemma filled_in ms :
  filled (tokens_in ms) = true -> exists t, In (t, true) ms.
Proof.
  destruct (tokens_in ms) as [|t l] eqn:E; [discriminate|]. intros _.
  exists t. apply in_tokens_in. rewrite E. now left.
Qed.

Lemma filled_out ms :
  filled (tokens_out ms) = true -> exists t, In (t, false) ms.
Proof.
  destruct (tokens_out ms) as [|t l] eqn:E; [discriminate|]. intros _.
  exists t. apply in_tokens_out. rewrite E. now left.
Qed.

Lemma direction_some t_in t_out r :
  direction t_in t_out = Some r ->
  filled t_in = true /\ filled t_out = true /\
  (r = ("BUY", 9 # 10) \/ r = ("SELL", 9 # 10) \/ r = ("TRANSFER", 7 # 10)).
Proof.
  rewrite direction_chain.
  destruct (some stable t_out) eqn:A, (some (fun t => negb (stable t)) t_in) eqn:B;
    cbn [andb].
  1: { intros [= <-]. apply some_filled in A, B. auto. }
  all: destruct (some (fun t => negb (stable t)) t_out) eqn:C,
                (some stable t_in) eqn:D; cbn [andb];
    try (intros [= <-]; apply some_filled in C, D; now auto).
  all: destruct (filled t_out) eqn:Fo, (filled t_in) eqn:Fi; cbn [andb];
    try discriminate; intros [= <-]; auto.
Qed.

Lemma movement_flip pre post idx :
  mint_of (post !! idx) (pre !! idx) = mint_of (pre !! idx) (post !! idx) ->
  movement post pre idx = option_map flip (movement pre post idx).
Proof.
  intros Hm. unfold movement. rewrite Hm.
  set (a := amount_of (pre !! idx)). set (b := amount_of (post !! idx)).
  rewrite (Qltb_compat (Qabs (a - b)) (Qabs (b - a)) (1 # 1000)).
  2: { rewrite <- (Qabs_opp (b - a)). apply Qabs_wd. ring. }
  destruct (Qltb (Qabs (b - a)) (1 # 1000)) eqn:Hs; [reflexivity|].
  apply ThresholdFacts.Qltb_false in Hs.
  assert (Hn : Qltb 0 (a - b) = negb (Qltb 0 (b - a))).
  { destruct (Qltb 0 (b - a)) eqn:Hd.
    - apply ThresholdFacts.Qltb_true in Hd.
      apply ThresholdFacts.Qltb_false. lra.
    - apply ThresholdFacts.Qltb_false in Hd.
      rewrite Qabs_neg in Hs by lra.
      apply ThresholdFacts.Qltb_true. lra. }
  rewrite Hn. reflexivity.
Qed.

Lemma omap_flip (f g : Z -> option (string * bool)) (l : list Z) :
  (forall idx, In idx l -> g idx = option_map flip (f idx)) ->
  omap g l = map flip (omap f l).
Proof.
  induction l as [|idx l IH]; intros H; [reflexivity|].
  cbn [omap list_omap]. rewrite (H idx) by now left.
  rewrite IH by (intros; apply H; now right).
  destruct (f idx); reflexivity.
Qed.

Lemma tokens_in_flip ms : tokens_in (map flip ms) = tokens_out ms.
Proof.
  unfold tokens_in, tokens_out.
  induction ms as [|[t b] ms IH]; [reflexivity|].
  cbn [map List.filter flip fst snd]. destruct b; cbn [negb map fst]; now rewrite IH.
Qed.

Lemma tokens_out_flip ms : tokens_out (map flip ms) = tokens_in ms.
Proof.
  unfold tokens_in, tokens_out.
  induction ms as [|[t b] ms IH]; [reflexivity|].
  cbn [map List.filter flip fst snd]. destruct b; cbn [negb map fst]; now rewrite IH.
Qed.

(** Read backwards, every inflow is an outflow and every outflow an
    inflow. *)
Lemma movements_reversed meta :
  mints_agree meta = true ->
  movements (by_index (preTokenBalances (reversed meta)))
            (by_index (postTokenBalances (reversed meta)))
  = map flip (movements (by_index (preTokenBalances meta))
                        (by_index (postTokenBalances meta))).
Proof.
  unfold mints_agree, movements. cbn [reversed preTokenBalances postTokenBalances].
  intros H.
  rewrite (union_comm_L (dom (by_index (postTokenBalances meta)))).
  apply omap_flip. intros idx Hin.
  apply movement_flip. apply String.eqb_eq.
  exact (proj1 (forallb_forall _ _) H idx Hin).
Qed.

End TokenFlowFacts.

(** X27: a transaction gets a direction only when it did not fail and
    some token account rose and some token account fell by at least
    0.001; the answer is then BUY or SELL with confidence 0.9 or TRANSFER
    with confidence 0.7.  A failed transaction, one whose balances all
    stay within 0.001, or one that only pays in or only pays out has no
    flow. *)
Theorem X27_flow_needs_both_sides (meta : TokenFlow.tx_meta) (r : string * Q) :
  TokenFlow.extract_solana_token_flow (Some meta) = Some r ->
  TokenFlow.err meta = None /\
  (exists i,
      (1 # 1000 <=
       TokenFlow.amount_of (TokenFlow.by_index (TokenFlow.postTokenBalances meta) !! i)
       - TokenFlow.amount_of (TokenFlow.by_index (TokenFlow.preTokenBalances meta) !! i))%Q) /\
  (exists j,
      (TokenFlow.amount_of (TokenFlow.by_index (TokenFlow.postTokenBalances meta) !! j)
       - TokenFlow.amount_of (TokenFlow.by_index (TokenFlow.preTokenBalances meta) !! j)
       <= - (1 # 1000))%Q) /\
  (r = ("BUY", 9 # 10) \/ r = ("SELL", 9 # 10) \/ r = ("TRANSFER", 7 # 10)).
Proof.
  unfold TokenFlow.extract_solana_token_flow.
  destruct (TokenFlow.err meta) as [e|]; [discriminate|].
  intros H. apply TokenFlowFacts.direction_some in H as (Hi & Ho & Hr).
  split; [reflexivity|].
  apply TokenFlowFacts.filled_in in Hi as (ti & Hi).
  apply TokenFlowFacts.filled_out in Ho as (to & Ho).
  apply TokenFlowFacts.in_movements in Hi as (i & _ & Hi).
  apply TokenFlowFacts.in_movements in Ho as (j & _ & Ho).
  split; [exists i; eapply TokenFlowFacts.movement_in; exact Hi|].
  split; [exists j; eapply TokenFlowFacts.movement_out; exact Ho|].
  exact Hr.
Qed.

Lemma X27_flow_needs_both_sides_witness :
  TokenFlow.extract_solana_token_flow (Some swap_meta) = Some ("BUY", 9 # 10) /\
  TokenFlow.err swap_meta = None.
Proof.
  assert (H : TokenFlow.extract_solana_token_flow (Some swap_meta) = Some ("BUY", 9 # 10))
    by (vm_compute; reflexivity).
  split; [exact H|].
  exact (proj1 (X27_flow_needs_both_sides swap_meta _ H)).
Defined.

(** X28: reading a transaction backwards (balances before and after
    exchanged, no account changing its mint) turns a SELL into a BUY,
    keeps a TRANSFER a TRANSFER and keeps a transaction without flow
    without flow.  A BUY read backwards is a SELL or again a BUY: the BUY
    test comes first, so a transaction with a stablecoin and another
    token on both sides is a BUY in both readings. *)
Theorem X28_flow_reversal (meta : TokenFlow.tx_meta) :
  TokenFlow.mints_agree meta = true ->
  let r := TokenFlow.extract_solana_token_flow (Some meta) in
  let r' := TokenFlow.extract_solana_token_flow (Some (TokenFlow.reversed meta)) in
  (r = Some ("SELL", 9 # 10) -> r' = Some ("BUY", 9 # 10)) /\
  (r = Some ("TRANSFER", 7 # 10) -> r' = Some ("TRANSFER", 7 # 10)) /\
  (r = None -> r' = None) /\
  (r = Some ("BUY", 9 # 10) ->
   r' = Some ("SELL", 9 # 10) \/ r' = Some ("BUY", 9 # 10)).
Proof.
  intros Hm. cbv zeta. unfold TokenFlow.extract_solana_token_flow.
  rewrite (TokenFlowFacts.movements_reversed meta Hm).
  change (TokenFlow.err (TokenFlow.reversed meta)) with (TokenFlow.err meta).
  destruct (TokenFlow.err meta) as [e|].
  { repeat split; intros; try discriminate; reflexivity. }
  rewrite TokenFlowFacts.tokens_in_flip, TokenFlowFacts.tokens_out_flip.
  rewrite !TokenFlowFacts.direction_chain.
  set (ms := TokenFlow.movements _ _).
  destruct (TokenFlow.some TokenFlow.stable (TokenFlow.tokens_out ms)),
           (TokenFlow.some (fun t => negb (TokenFlow.stable t)) (TokenFlow.tokens_in ms)),
           (TokenFlow.some (fun t => negb (TokenFlow.stable t)) (TokenFlow.tokens_out ms)),
           (TokenFlow.some TokenFlow.stable (TokenFlow.tokens_in ms)),
           (TokenFlow.filled (TokenFlow.tokens_out ms)),
           (TokenFlow.filled (TokenFlow.tokens_in ms));
    cbn [andb]; repeat split; intros; try discriminate; auto.
Qed.

Lemma X28_flow_reversal_witness :
  TokenFlow.mints_agree swap_meta = true /\
  TokenFlow.extract_solana_token_flow (Some (TokenFlow.reversed swap_meta))
  = Some ("SELL", 9 # 10).
Proof.
  assert (Hm : TokenFlow.mints_agree swap_meta = true) by (vm_compute; reflexivity).
  split; [exact Hm|].
  destruct (proj2 (proj2 (proj2 (X28_flow_reversal swap_meta Hm)))
              ltac:(vm_compute; reflexivity)) as [H|H].
  - exact H.
  - vm_compute in H. discriminate H.
Defined.
